(** * StockApp: indicators, strategies and the backtest simulator

    A shallow embedding of [stock_data_manager.py] (the indicator
    methods of [StockDataManager]) and of [trading_strategy.py]
    ([TradingStrategy.macd_strategy] and [TradingStrategy.backtest]).

    Numbers are the program's own: every price, cash amount and statistic
    is an IEEE-754 binary64 value (Python [float] / [numpy.float64]),
    modelled by Rocq's primitive floats, whose operations round exactly as
    the hardware does; share counts are Python integers, modelled by [Z].
    A raised exception is an explicit [Raise] result. *)

From Stdlib Require Import ZArith QArith Qround Floats Bool Lia.
From stdpp Require Import base option list gmap strings pretty.

Set Warnings "-inexact-float".

(** ** Python values: exceptions, floats and integers *)
Module Py.

(** The exceptions the modelled code paths can raise.  [KeyError] carries
    the exception's argument (the missing label, or pandas' message). *)
Inductive exn : Type :=
| KeyError (arg : string)
| ValueError (msg : string)
| OverflowError (msg : string)
| IndexError (msg : string).

(** The name of the exception's class, as [type(e).__name__]. *)
Definition exn_class (e : exn) : string :=
  match e with
  | KeyError _ => "KeyError"
  | ValueError _ => "ValueError"
  | OverflowError _ => "OverflowError"
  | IndexError _ => "IndexError"
  end.

(** A computation either returns a value or raises. *)
Inductive result (A : Type) : Type :=
| Ok (a : A)
| Raise (e : exn).
Global Arguments Ok {A} a.
Global Arguments Raise {A} e.

Global Instance result_ret : MRet result := fun A a => Ok a.
Global Instance result_bind : MBind result := fun A B f m =>
  match m with
  | Ok a => f a
  | Raise e => Raise e
  end.

Definition is_ok {A} (r : result A) : bool :=
  match r with Ok _ => true | Raise _ => false end.

(** Float constants and tests. *)
Definition nan : float := PrimFloat.nan.

(** [x != y] on floats: true when unordered (a NaN never equals). *)
Definition neqb (x y : float) : bool := negb (PrimFloat.eqb x y).

(** [x > y] on floats. *)
Definition gtb (x y : float) : bool := PrimFloat.ltb y x.

(** The integer [m * 2^e] truncated toward zero; [Z.shiftl] by a
    negative amount shifts right, which floors a positive mantissa. *)
Definition trunc_mag (m : positive) (e : Z) : Z := Z.shiftl (Zpos m) e.

(** Python's [int(x)] for a float [x]: truncation toward zero;
    [ValueError] on NaN and [OverflowError] on an infinity. *)
Definition int_of_float (x : float) : result Z :=
  match Prim2SF x with
  | S754_nan => Raise (ValueError "cannot convert float NaN to integer")
  | S754_infinity _ =>
      Raise (OverflowError "cannot convert float infinity to integer")
  | S754_zero _ => Ok 0%Z
  | S754_finite s m e => Ok (cond_Zopp s (trunc_mag m e))
  end.

(** Conversion of a Python integer to a float (round to nearest, ties
    to even); an integer whose rounding leaves the binary64 range
    raises [OverflowError]. *)
Definition float_of_int (z : Z) : result float :=
  match binary_normalize prec emax z 0 false with
  | S754_infinity _ => Raise (OverflowError "int too large to convert to float")
  | sf => Ok (SF2Prim sf)
  end.

(** [n * x] for a Python integer [n] and a float [x]: the integer is
    converted first, then the product is a float product. *)
Definition mul_int_float (n : Z) (x : float) : result float :=
  f ← float_of_int n; Ok (PrimFloat.mul f x).

End Py.
Export Py.


(** ** The pandas operations the program calls

    A [DataFrame] is stored column-wise: an index of row labels and named
    float64 columns (an integer column such as [signal] is held by its
    float values, which is also what [iterrows] hands out once a frame
    mixes integer and float columns).  The series operations below give
    each pandas call by its defining formula, summed from left to right.
    pandas and NumPy accumulate the sums of [rolling], [ewm], [mean] and
    [std] otherwise (a compensated running sum, pairwise summation from
    eight values on, an average left unchanged by an observation equal
    to it), so the last bits of such a value can differ from the one
    computed here.  The theorems below therefore speak of the columns
    and entries a method returns and of how they relate to each other,
    and of the values no order of summation changes: the missing values,
    the exact zeros and the lengths. *)
Module Pandas.

Definition date := Z.
Abbreviation Series := (list float).
Abbreviation Row := (gmap string float).

Record DataFrame : Type := mkDataFrame {
  df_index : list date;
  df_columns : gmap string Series
}.

(** [pd.DataFrame()]: no rows and no columns. *)
Definition empty_frame : DataFrame := mkDataFrame [] ∅.

(** [df[c]]. *)
Definition getitem (df : DataFrame) (c : string) : result Series :=
  match df_columns df !! c with
  | Some col => Ok col
  | None => Raise (KeyError c)
  end.

(** [df[c] = col]. *)
Definition setitem (df : DataFrame) (c : string) (col : Series) : DataFrame :=
  mkDataFrame (df_index df) (<[c := col]> (df_columns df)).

(** [df[c] = v] for a scalar [v]. *)
Definition setitem_scalar (df : DataFrame) (c : string) (v : float) : DataFrame :=
  setitem df c (replicate (length (df_index df)) v).

(** [df.loc[mask, c] = v]: the rows where [mask] is true get [v]. *)
Definition loc_set (df : DataFrame) (mask : list bool) (c : string) (v : float)
  : result DataFrame :=
  col ← getitem df c;
  Ok (setitem df c
        (imap (fun i x => match mask !! i with Some true => v | _ => x end) col)).

(** The row Series that [iterrows] yields at position [i]: one entry per
    column (a column shorter than the index, which pandas cannot build,
    would leave the entry out). *)
Definition row_at (df : DataFrame) (i : nat) : Row :=
  omap (fun col : Series => col !! i) (df_columns df).

Definition iterrows (df : DataFrame) : list (date * Row) :=
  imap (fun i d => (d, row_at df i)) (df_index df).

(** [k in row] and [row[k]]. *)
Definition row_contains (row : Row) (k : string) : bool :=
  bool_decide (is_Some (row !! k)).

Definition row_get (row : Row) (k : string) : result float :=
  match row !! k with
  | Some v => Ok v
  | None => Raise (KeyError k)
  end.

(** Exactly rounded float of an integer (used for counts). *)
Definition float_of_Z (z : Z) : float :=
  SF2Prim (binary_normalize prec emax z 0 false).

Definition fsum (xs : Series) : float := foldl PrimFloat.add 0%float xs.

Definition dropna (xs : Series) : Series :=
  filter (fun x => is_nan x = false) xs.

(** [s.shift(1)]. *)
Definition shift1 (xs : Series) : Series := take (length xs) (nan :: xs).

(** [s.diff()]. *)
Definition diff (xs : Series) : Series := zip_with PrimFloat.sub xs (shift1 xs).

(** [s.where(cond, other)] with [cond] computed elementwise from [s]. *)
Definition where_ (cond : float -> bool) (other : float) (xs : Series) : Series :=
  (fun x => if cond x then x else other) <$> xs.

(** One value of [s.rolling(window=p).mean()]: the mean of the trailing
    [p] observations, NaN until [p] non-missing ones are available.  The
    window is summed from left to right; pandas updates a compensated
    running sum, whose last bit can differ. *)
Definition rolling_at (p : nat) (xs : Series) (i : nat) : float :=
  if (p =? 0)%nat then nan
  else if (S i <? p)%nat then nan
  else
    let w := take p (drop (S i - p) xs) in
    if existsb is_nan w then nan
    else (fsum w / float_of_Z (Z.of_nat p))%float.

(** [s.rolling(window=p).mean()]; pandas rejects a negative window. *)
Definition rolling_mean (window : Z) (xs : Series) : result Series :=
  if (window <? 0)%Z then Raise (ValueError "window must be an integer 0 or greater")
  else Ok (imap (fun i _ => rolling_at (Z.to_nat window) xs i) xs).

(** [s.ewm(span=n, adjust=False).mean()] for a series without missing
    values: [y0 = x0] and [y_t = (1 - a) * y_(t-1) + a * x_t] with
    [a = 2 / (n + 1)].  pandas leaves the average as it is when the
    observation equals it, so beyond the first value the last bits can
    differ. *)
Fixpoint ewm_from (alpha prev : float) (xs : Series) : Series :=
  match xs with
  | [] => []
  | x :: rest =>
      let y := ((1 - alpha) * prev + alpha * x)%float in
      y :: ewm_from alpha y rest
  end.

Definition ewm_mean (span : Z) (xs : Series) : Series :=
  match xs with
  | [] => []
  | x :: rest => x :: ewm_from (2 / (float_of_Z span + 1))%float x rest
  end.

(** [s.pct_change()]: the ratio to the previous value, minus one; a
    missing value is not filled in from its predecessor. *)
Definition pct_change (xs : Series) : Series :=
  zip_with (fun x p => (x / p - 1)%float) xs (shift1 xs).

(** [s.mean()], missing values skipped; summed from left to right
    (NumPy sums pairwise from eight values on). *)
Definition mean (xs : Series) : float :=
  let v := dropna xs in
  match v with
  | [] => nan
  | _ => (fsum v / float_of_Z (Z.of_nat (length v)))%float
  end.

(** [s.std()]: sample standard deviation (one delta degree of freedom),
    missing values skipped; NaN with fewer than two observations.
    Summed from left to right, as [mean]. *)
Definition std (xs : Series) : float :=
  let v := dropna xs in
  let n := length v in
  if (n <=? 1)%nat then nan
  else
    let avg := (fsum v / float_of_Z (Z.of_nat n))%float in
    let sq := (fun x => ((avg - x) * (avg - x))%float) <$> v in
    PrimFloat.sqrt (fsum sq / float_of_Z (Z.of_nat n - 1))%float.

(** [s.cummax()]: a missing value stays missing and is skipped. *)
Fixpoint cummax_from (cur : option float) (xs : Series) : Series :=
  match xs with
  | [] => []
  | x :: rest =>
      if is_nan x then nan :: cummax_from cur rest
      else
        let m := match cur with
                 | None => x
                 | Some c => if (c <? x)%float then x else c
                 end in
        m :: cummax_from (Some m) rest
  end.

Definition cummax (xs : Series) : Series := cummax_from None xs.

(** [s.min()], missing values skipped. *)
Definition series_min (xs : Series) : float :=
  match dropna xs with
  | [] => nan
  | x :: rest => foldl (fun m y => if (y <? m)%float then y else m) x rest
  end.

(** [s.iloc[-1]]. *)
Definition iloc_last (xs : Series) : result float :=
  match last xs with
  | Some v => Ok v
  | None => Raise (IndexError "single positional indexer is out-of-bounds")
  end.

End Pandas.
Export Pandas.

(** ** stock_data_manager.py: the indicator methods

    [self.historical_data] is passed explicitly as [hist]. *)
Module StockDataManager.

(** The frame a freshly constructed manager holds: [pd.DataFrame()]. *)
Definition initial_historical_data : DataFrame := empty_frame.

(** The body of [for period in periods] in [calculate_ma]. *)
Fixpoint calculate_ma_loop (hist : DataFrame) (periods : list Z) (result : DataFrame)
  : Py.result DataFrame :=
  match periods with
  | [] => Ok result
  | period :: rest =>
      close ← getitem hist "close";
      ma ← rolling_mean period close;
      calculate_ma_loop hist rest (setitem result ("MA" +:+ pretty period) ma)
  end.

Definition calculate_ma (hist : DataFrame) (periods : list Z) : Py.result DataFrame :=
  calculate_ma_loop hist periods hist.

Definition calculate_macd (hist : DataFrame) : Py.result DataFrame :=
  let result := hist in
  close ← getitem hist "close";
  let result := setitem result "EMA12" (ewm_mean 12 close) in
  close ← getitem hist "close";
  let result := setitem result "EMA26" (ewm_mean 26 close) in
  ema12 ← getitem result "EMA12";
  ema26 ← getitem result "EMA26";
  let result := setitem result "DIF" (zip_with PrimFloat.sub ema12 ema26) in
  dif ← getitem result "DIF";
  let result := setitem result "DEA" (ewm_mean 9 dif) in
  dif ← getitem result "DIF";
  dea ← getitem result "DEA";
  Ok (setitem result "MACD"
        (zip_with (fun a b => (2 * (a - b))%float) dif dea)).

(** [gain] and [loss] of [calculate_rsi], from the [close] column. *)
Definition rsi_gain (period : Z) (close : Series) : Py.result Series :=
  rolling_mean period (where_ (fun d => gtb d 0) 0%float (diff close)).

Definition rsi_loss (period : Z) (close : Series) : Py.result Series :=
  rolling_mean period
    (PrimFloat.opp <$> where_ (fun d => PrimFloat.ltb d 0) 0%float (diff close)).

(** [100 - (100 / (1 + rs))] with [rs = gain / loss]. *)
Definition rsi_value (gain loss : float) : float :=
  let rs := (gain / loss)%float in
  (100 - 100 / (1 + rs))%float.

Definition calculate_rsi (hist : DataFrame) (period : Z) : Py.result DataFrame :=
  let result := hist in
  close ← getitem result "close";
  gain ← rsi_gain period close;
  loss ← rsi_loss period close;
  Ok (setitem result ("RSI" +:+ pretty period) (zip_with rsi_value gain loss)).

End StockDataManager.
Export StockDataManager.

(** ** trading_strategy.py *)
Module TradingStrategy.

(** *** [macd_strategy] *)
Definition macd_strategy (hist : DataFrame) : Py.result DataFrame :=
  macd_data ← calculate_macd hist;
  let macd_data := setitem_scalar macd_data "signal" 0%float in
  (* golden cross: DIF crosses above DEA *)
  dif ← getitem macd_data "DIF";
  dea ← getitem macd_data "DEA";
  let golden :=
    zip_with andb (zip_with gtb dif dea)
                  (zip_with PrimFloat.leb (shift1 dif) (shift1 dea)) in
  macd_data ← loc_set macd_data golden "signal" 1%float;
  (* death cross: DIF crosses below DEA *)
  dif ← getitem macd_data "DIF";
  dea ← getitem macd_data "DEA";
  let death :=
    zip_with andb (zip_with PrimFloat.ltb dif dea)
                  (zip_with (fun a b => PrimFloat.leb b a) (shift1 dif) (shift1 dea)) in
  loc_set macd_data death "signal" (-1)%float.

(** *** [ma_cross_strategy] *)
Definition ma_cross_strategy (hist : DataFrame) (short_period long_period : Z)
  : Py.result DataFrame :=
  ma_data ← calculate_ma hist [short_period; long_period];
  let ma_data := setitem_scalar ma_data "signal" 0%float in
  ma_short ← getitem ma_data ("MA" +:+ pretty short_period);
  ma_long ← getitem ma_data ("MA" +:+ pretty long_period);
  ma_data ← loc_set ma_data (zip_with gtb ma_short ma_long) "signal" 1%float;
  signal ← getitem ma_data "signal";
  Ok (setitem ma_data "position" (diff signal)).

(** *** [rsi_strategy] *)
Definition rsi_strategy (hist : DataFrame) (period : Z) (overbought oversold : float)
  : Py.result DataFrame :=
  rsi_data ← calculate_rsi hist period;
  let rsi_data := setitem_scalar rsi_data "signal" 0%float in
  (* oversold: buy *)
  rsi ← getitem rsi_data ("RSI" +:+ pretty period);
  rsi_data ← loc_set rsi_data ((fun x => PrimFloat.ltb x oversold) <$> rsi) "signal" 1%float;
  (* overbought: sell *)
  rsi ← getitem rsi_data ("RSI" +:+ pretty period);
  loc_set rsi_data ((fun x => gtb x overbought) <$> rsi) "signal" (-1)%float.

(** *** [backtest]: the day loop *)
Inductive side : Type := buy | sell.

Record Trade : Type := mkTrade {
  trade_date : date;
  trade_type : side;
  trade_price : float;
  trade_shares : Z;
  trade_value : float
}.

Global Arguments mkTrade _%_Z _ _%_float _%_Z _%_float.

(** The loop's local variables. *)
Record SimState : Type := mkSim {
  cash : float;
  position : Z;
  trades : list Trade;
  portfolio_value : list (date * float)
}.

Global Arguments mkSim _%_float _%_Z _ _.

Definition init_state (initial_cash : float) : SimState :=
  mkSim initial_cash 0 [] [].

(** The trigger of a row: [position] if the row has it, else [signal]. *)
Definition row_signal (row : Row) : Py.result float :=
  if row_contains row "position" then row_get row "position"
  else row_get row "signal".

(** The [if signal == 1 ... elif signal == -1 ...] statement. *)
Definition on_signal (st : SimState) (d : date) (row : Row) (signal : float)
  : Py.result SimState :=
  if (signal =? 1)%float then
    if gtb (cash st) 0 then
      close ← row_get row "close";
      shares ← int_of_float (cash st / close)%float;
      cost ← mul_int_float shares close;
      Ok (mkSim (cash st - cost)%float (position st + shares)%Z
            (trades st ++ [mkTrade d buy close shares cost])
            (portfolio_value st))
    else Ok st
  else if (signal =? -1)%float then
    if (0 <? position st)%Z then
      close ← row_get row "close";
      value ← mul_int_float (position st) close;
      Ok (mkSim (cash st + value)%float 0%Z
            (trades st ++ [mkTrade d sell close (position st) value])
            (portfolio_value st))
    else Ok st
  else Ok st.

(** [portfolio_value.append({'date': date, 'value': cash + position * close})]. *)
Definition record_value (st : SimState) (d : date) (row : Row) : Py.result SimState :=
  close ← row_get row "close";
  held ← mul_int_float (position st) close;
  Ok (mkSim (cash st) (position st) (trades st)
        (portfolio_value st ++ [(d, (cash st + held)%float)])).

(** One iteration of [for date, row in strategy_data.iterrows()]. *)
Definition step (st : SimState) (r : date * Row) : Py.result SimState :=
  signal ← row_signal r.2;
  st ← on_signal st r.1 r.2 signal;
  record_value st r.1 r.2.

Fixpoint simulate (rows : list (date * Row)) (st : SimState) : Py.result SimState :=
  match rows with
  | [] => Ok st
  | r :: rest => st ← step st r; simulate rest st
  end.

(** *** [backtest]: the summary statistics *)
Record Stats : Type := mkStats {
  initial_capital : float;
  final_capital : float;
  total_return : float;
  annual_return : float;
  volatility : float;
  sharpe_ratio : float;
  max_drawdown : float;
  trade_count : nat
}.

Record BacktestResult : Type := mkResult {
  stats : Stats;
  result_trades : list Trade;
  result_portfolio : gmap date float
}.

(** [np.sqrt(252)]. *)
Definition sqrt252 : float := PrimFloat.sqrt 252.

(** The [sharpe_ratio] entry, from [returns.mean()] and [returns.std()];
    the fallback [0] is the integer zero, held by its float value. *)
Definition sharpe (mean_r std_r : float) : float :=
  if neqb std_r 0 then ((mean_r * 252) / (std_r * sqrt252))%float else 0%float.

(** [pd.DataFrame(portfolio_value)] followed by [set_index('date')]: a
    frame built from an empty list has no [date] column to index by. *)
Definition portfolio_series (pv : list (date * float)) : Py.result Series :=
  match pv with
  | [] => Raise (KeyError "None of ['date'] are in the columns")
  | _ => Ok (snd <$> pv)
  end.

Definition performance (initial_cash : float) (st : SimState) : Py.result Stats :=
  value ← portfolio_series (portfolio_value st);
  let returns := pct_change value in
  final ← iloc_last value;
  Ok (mkStats
        initial_cash
        final
        ((final - initial_cash) / initial_cash * 100)%float
        (mean returns * 252 * 100)%float
        (std returns * sqrt252 * 100)%float
        (sharpe (mean returns) (std returns))
        (series_min (zip_with (fun v m => (v / m - 1)%float) value (cummax value)) * 100)%float
        (length (trades st))).

(** [portfolio_df.to_dict()['value']]: a later row replaces an earlier
    one with the same date. *)
Definition to_dict (pv : list (date * float)) : gmap date float :=
  foldl (fun m kv => <[kv.1 := kv.2]> m) ∅ pv.

Definition backtest (strategy_data : DataFrame) (initial_cash : float)
  : Py.result BacktestResult :=
  st ← simulate (iterrows strategy_data) (init_state initial_cash);
  stats ← performance initial_cash st;
  Ok (mkResult stats (trades st) (to_dict (portfolio_value st))).

End TradingStrategy.
Export TradingStrategy.


(** ** Vocabulary of the statements *)
Module Spec.

(** A price the data model admits: a positive finite number. *)
Definition positive_finite (c : float) : bool :=
  (PrimFloat.ltb 0 c) && (PrimFloat.ltb c infinity).

Definition close_ok (row : Row) : bool :=
  match row !! "close" with
  | Some c => positive_finite c
  | None => false
  end.

(** Every row of the frame carries a positive finite close, as the rows
    of a price series (and of every frame derived from one) do. *)
Definition valid_closes (df : DataFrame) : Prop :=
  Forall (fun r : date * Row => close_ok r.2 = true) (iterrows df).

(** [x >= 0] on floats. *)
Definition nonneg (x : float) : bool := PrimFloat.leb 0 x.

(** The computation raises an exception of the named class. *)
Definition raises_class {A} (r : result A) (cls : string) : Prop :=
  exists e, r = Raise e /\ exn_class e = cls.

Definition side_eqb (a b : side) : bool :=
  match a, b with
  | buy, buy | sell, sell => true
  | _, _ => false
  end.

(** Total shares over the trades of one side of the log. *)
Definition shares_of (k : side) (log : list Trade) : Z :=
  foldr (fun t acc => if side_eqb (trade_type t) k then (trade_shares t + acc)%Z else acc)
        0%Z log.

(** The position is never negative, it is the shares bought minus the
    shares sold, and every sale in the log sold at least one share. *)
Definition balanced (st : SimState) : Prop :=
  (0 <= position st)%Z
  /\ position st = (shares_of buy (trades st) - shares_of sell (trades st))%Z
  /\ Forall (fun t => trade_type t = sell -> (0 < trade_shares t)%Z) (trades st).

(** [returns]: the day-over-day change of the recorded equity curve. *)
Definition daily_returns (st : SimState) : Series :=
  pct_change (snd <$> portfolio_value st).


(** The column [backtest] reads the trigger of a row from. *)
Definition trigger_column (row : Row) : string :=
  if row_contains row "position" then "position" else "signal".

(** The row with a not-a-number trigger replaced by 0 (hold). *)
Definition hold_nan (row : Row) : Row :=
  match row !! trigger_column row with
  | Some t => if is_nan t then <[trigger_column row := 0%float]> row else row
  | None => row
  end.

(** *** Four claims as the specification words them

    These are refuted below, each next to the statement that holds. *)

(** C3: on a day whose trigger is +1, while the simulator is long or its
    cash is 0, the trade log does not change. *)
Definition no_buy_when_long_or_broke : Prop :=
  forall (st st' : SimState) (d : date) (row : Row) (signal : float),
    row_signal row = Ok signal -> PrimFloat.eqb signal 1 = true ->
    (0 < position st)%Z \/ PrimFloat.eqb (cash st) 0 = true ->
    step st (d, row) = Ok st' ->
    trades st' = trades st.

(** C6: wherever the mean loss of a row is exactly 0, the RSI of that row
    is 100. *)
Definition rsi_zero_loss_is_100 : Prop :=
  forall (hist res : DataFrame) (period : Z) (close loss rsi : Series)
         (i : nat) (l r : float),
    getitem hist "close" = Ok close ->
    rsi_loss period close = Ok loss ->
    calculate_rsi hist period = Ok res ->
    getitem res ("RSI" +:+ pretty period) = Ok rsi ->
    loss !! i = Some l -> PrimFloat.eqb l 0 = true ->
    rsi !! i = Some r ->
    r = 100%float.

(** C7: a history without rows makes the indicator methods fail with
    [InsufficientDataError], and a non-positive period with
    [InvalidParameterError]. *)
Definition indicators_validate_input : Prop :=
  (forall (hist : DataFrame) (period : Z),
      df_index hist = [] ->
      raises_class (calculate_rsi hist period) "InsufficientDataError"
      /\ raises_class (calculate_ma hist [period]) "InsufficientDataError"
      /\ raises_class (calculate_macd hist) "InsufficientDataError")
  /\ (forall (hist : DataFrame) (period : Z),
      (period <= 0)%Z ->
      raises_class (calculate_rsi hist period) "InvalidParameterError"
      /\ raises_class (calculate_ma hist [period]) "InvalidParameterError").


End Spec.
Export Spec.

(** ** Concrete frames used below *)
Module Frames.

(** A frame with a [close] and a [signal] column. *)
Definition signal_frame (index : list date) (close signal : Series) : DataFrame :=
  mkDataFrame index (<["close" := close]> (<["signal" := signal]> ∅)).

(** A price history: a [close] column only. *)
Definition price_frame (index : list date) (close : Series) : DataFrame :=
  mkDataFrame index (<["close" := close]> ∅).

(** Three days, closes 10, 12, 8, triggers +1, 0, -1. *)
Definition three_days : DataFrame :=
  signal_frame [1; 2; 3]%Z [10; 12; 8]%float [1; 0; -1]%float.

(** One day: a buy trigger at a close of 5.11. *)
Definition one_buy : DataFrame :=
  signal_frame [1]%Z [5.11]%float [1]%float.

(** Two buy triggers in a row, the price halving in between. *)
Definition two_buys : DataFrame :=
  signal_frame [1; 2]%Z [10; 5]%float [1; 1]%float.


(** Three quiet days at a constant price. *)
Definition flat_three_days : DataFrame :=
  signal_frame [1; 2; 3]%Z [10; 10; 10]%float [0; 0; 0]%float.

(** A trigger column with a missing first value, as a day-over-day
    difference has. *)
Definition nan_first : DataFrame :=
  mkDataFrame [1; 2]%Z
    (<["close" := [10; 12]%float]> (<["position" := [nan; 1%float]]> ∅)).

(** A buy trigger at a negative close, which no price series has. *)
Definition negative_close : DataFrame :=
  signal_frame [1]%Z [-10]%float [1]%float.

(** Prices without any trigger column. *)
Definition no_trigger : DataFrame := price_frame [1; 2]%Z [10; 12]%float.

(** Histories for the indicators. *)
Definition constant_prices : DataFrame := price_frame [1; 2; 3]%Z [10; 10; 10]%float.
Definition rising_prices : DataFrame := price_frame [1; 2; 3; 4]%Z [10; 11; 12; 14]%float.
Definition no_rows : DataFrame := price_frame [] [].
Definition wave : DataFrame :=
  price_frame [1; 2; 3; 4; 5; 6]%Z [10; 9; 8; 9; 11; 10]%float.

(** The loop state after the three days, from an initial cash of 100. *)
Definition three_days_end : SimState :=
  mkSim 80 0
    [mkTrade 1 buy 10 10 100; mkTrade 3 sell 8 10 80]
    [(1%Z, 100%float); (2%Z, 120%float); (3%Z, 80%float)].

(** The loop state after the first of the two buys, from a cash of 105. *)
Definition two_buys_day1 : SimState :=
  mkSim 5 10 [mkTrade 1 buy 10 10 100] [(1%Z, 105%float)].

(** The second row of [two_buys]. *)
Definition two_buys_row2 : Row := <["close" := 5%float]> (<["signal" := 1%float]> ∅).

(** A flat state without cash, and a buy row. *)
Definition broke : SimState := mkSim 0 0 [] [].
Definition buy_row : Row := <["close" := 10%float]> (<["signal" := 1%float]> ∅).
Definition hold_row : Row := <["close" := 10%float]> (<["signal" := 0%float]> ∅).
Definition nan_row : Row := <["close" := 10%float]> (<["position" := nan]> ∅).

End Frames.
Export Frames.

(** ** Further vocabulary: rows and frames as [backtest] reads them *)
Module Reads.

(** The trigger of the row is neither 1 nor -1: the day is a hold. *)
Definition quiet_row (row : Row) : Prop :=
  exists t, row_signal row = Ok t
            /\ PrimFloat.eqb t 1 = false /\ PrimFloat.eqb t (-1) = false.

(** The row has a price and a trigger to read. *)
Definition readable_row (row : Row) : Prop :=
  is_Some (row !! "close")
  /\ (is_Some (row !! "position") \/ is_Some (row !! "signal")).

(** The named column holds one value per row of the frame. *)
Definition full_column (df : DataFrame) (c : string) : Prop :=
  exists col, df_columns df !! c = Some col /\ length col = length (df_index df).

(** The exception is one that converting or multiplying a number raises. *)
Definition numeric_error (e : exn) : Prop :=
  exn_class e = "ValueError" \/ exn_class e = "OverflowError".

(** Whatever [backtest] raises on the frame is a numeric error: it finds
    every label it looks up. *)
Definition feeds_backtest (df : DataFrame) : Prop :=
  forall initial_cash e, backtest df initial_cash = Raise e -> numeric_error e.

(** The frame has the index and the prices of the history, and a full
    [signal] column. *)
Definition signal_frame_of (hist res : DataFrame) : Prop :=
  df_index res = df_index hist
  /\ getitem res "close" = getitem hist "close"
  /\ full_column res "signal".

(** The [DIF] and [DEA] columns of [calculate_macd], from the closes. *)
Definition macd_dif (close : Series) : Series :=
  zip_with PrimFloat.sub (ewm_mean 12 close) (ewm_mean 26 close).

Definition macd_dea (close : Series) : Series := ewm_mean 9 (macd_dif close).

(** The crossing rule on two consecutive days: 1 when DIF rises above
    DEA, -1 when it falls below, 0 otherwise. *)
Definition cross_signal (dif0 dea0 dif1 dea1 : float) : float :=
  if gtb dif1 dea1 && PrimFloat.leb dif0 dea0 then 1%float
  else if PrimFloat.ltb dif1 dea1 && PrimFloat.leb dea0 dif0 then (-1)%float
  else 0%float.

(** The level rule of the RSI strategy; the sell test is the later
    assignment and wins. *)
Definition level_signal (rsi overbought oversold : float) : float :=
  if gtb rsi overbought then (-1)%float
  else if PrimFloat.ltb rsi oversold then 1%float
  else 0%float.

(** The number is neither an infinity nor a not-a-number
    ([math.isfinite]). *)
Definition finite (x : float) : bool := PrimFloat.ltb (PrimFloat.abs x) infinity.

(** The trend flag of the moving-average strategy. *)
Definition trend_signal (ma_short ma_long : float) : float :=
  if gtb ma_short ma_long then 1%float else 0%float.

(** The change of the trend flag from one day to the next. *)
Definition trend_change (short0 long0 short1 long1 : float) : float :=
  if gtb short1 long1 then (if gtb short0 long0 then 0%float else 1%float)
  else (if gtb short0 long0 then (-1)%float else 0%float).

End Reads.
Export Reads.

(** ** Further concrete frames *)
Module Samples.

(** Triggers without prices. *)
Definition no_close : DataFrame :=
  mkDataFrame [1; 2]%Z (<["signal" := [0; 1]%float]> ∅).

(** Three days whose triggers are all holds: 0, not-a-number, and a
    value that is neither 1 nor -1. *)
Definition quiet_days : DataFrame :=
  signal_frame [1; 2; 3]%Z [10; 12; 8]%float [0%float; nan; 2%float].

(** A frame with both trigger columns, as the moving-average strategy
    returns: [signal] is the 0/1 trend and [position] its change. *)
Definition both_columns : DataFrame :=
  mkDataFrame [1; 2; 3]%Z
    (<["close" := [10; 12; 8]%float]>
       (<["signal" := [0; 1; 1]%float]>
          (<["position" := [nan; 1%float; 0%float]]> ∅))).

(** A buy trigger at the smallest positive price: the quotient
    [cash / close] overflows. *)
Definition tiny_close : DataFrame :=
  signal_frame [1]%Z [5e-324]%float [1]%float.

(** The frame a strategy returned, and a column of a frame, for the
    examples. *)
Definition returned (r : Py.result DataFrame) : DataFrame :=
  match r with
  | Ok df => df
  | Raise _ => empty_frame
  end.

Definition column (df : DataFrame) (c : string) : Series :=
  match getitem df c with
  | Ok col => col
  | Raise _ => []
  end.

(** What the three strategies return on the falling then rising
    history. *)
Definition wave_macd : DataFrame := returned (macd_strategy wave).
Definition wave_rsi : DataFrame := returned (rsi_strategy wave 2 70 30).
Definition wave_ma : DataFrame := returned (ma_cross_strategy wave 2 3).

End Samples.
Export Samples.

(** ** Python strings and the exceptions of the request methods

    A [str] is a sequence of Unicode code points.  An exception of these
    methods is held by its class name and its message ([str(e)]). *)
Module PyStr.

Abbreviation str := (list N).

(** An ASCII literal of the source. *)
Definition lit (s : string) : str := Ascii.N_of_ascii <$> String.list_ascii_of_string s.

(** [s.startswith(prefix)]. *)
Fixpoint startswith (s prefix : str) {struct prefix} : bool :=
  match prefix, s with
  | [], _ => true
  | p :: ps, c :: cs => (c =? p)%N && startswith cs ps
  | _ :: _, [] => false
  end.

(** [s.isdigit()]: at least one character, and every character a digit
    of the Unicode tables, given by [digit]. *)
Definition isdigit (digit : N -> bool) (s : str) : bool :=
  match s with
  | [] => false
  | _ => forallb digit s
  end.

(** [s.split(sep)] for a separator of one character: one piece more than
    there are separators, empty pieces kept. *)
Fixpoint split (sep : N) (s : str) : list str :=
  match s with
  | [] => [[]]
  | c :: rest =>
      if (c =? sep)%N then [] :: split sep rest
      else match split sep rest with
           | w :: ws => (c :: w) :: ws
           | [] => [[c]]
           end
  end.

Record error : Type := mkError {
  error_class : string;
  error_message : string
}.

Inductive outcome (A : Type) : Type :=
| Returns (a : A)
| Raises (e : error).
Global Arguments Returns {A} a.
Global Arguments Raises {A} e.

Global Instance outcome_ret : MRet outcome := fun A a => Returns a.
Global Instance outcome_bind : MBind outcome := fun A B f m =>
  match m with
  | Returns a => f a
  | Raises e => Raises e
  end.

(** [l[i]] on a list. *)
Definition index {A} (l : list A) (i : nat) : outcome A :=
  match l !! i with
  | Some x => Returns x
  | None => Raises (mkError "IndexError" "list index out of range")
  end.

(** The exception is an instance of one of the classes of an [except]
    clause (the exceptions raised here have no subclasses in play). *)
Definition caught_by (classes : list string) (e : error) : bool :=
  bool_decide (error_class e ∈ classes).

End PyStr.
Export PyStr.

(** ** fetch_a_stock_codes.py *)
Module FetchCodes.

Definition convert_stock_code (code : str) : str :=
  if startswith code (lit "6") then lit "sh" ++ code
  else if startswith code (lit "0") || startswith code (lit "3") then lit "sz" ++ code
  else lit "bj" ++ code.

End FetchCodes.
Export FetchCodes.

(** ** stock_data_manager.py: the request methods

    The manager's three attributes are threaded through the methods: a
    method returns its outcome and the manager it leaves behind.  What
    the interpreter and the network supply is a parameter: the Unicode
    digit test, [float] and [strptime] on a [str], the reply to a GET
    request, and the method [_get_historical_data]. *)
Module Requests.

Record datetime : Type := mkDatetime {
  year : Z; month : Z; day : Z; hour : Z; minute : Z; second : Z
}.

(** The dict stored in [latest_data]. *)
Record Quote : Type := mkQuote {
  name : str;
  current_price : float;
  open_price : float;
  high_price : float;
  low_price : float;
  close_price : float;
  timestamp : datetime
}.

(** The attributes of a [StockDataManager]; the empty dict that
    [latest_data] starts with is [None]. *)
Record Manager : Type := mkManager {
  current_stock_code : str;
  historical_data : DataFrame;
  latest_data : option Quote
}.

(** [__init__]. *)
Definition new_manager : Manager := mkManager [] empty_frame None.

(** What [requests.get] followed by [raise_for_status] gives: an
    exception of the [RequestException] family, or the body text. *)
Inductive reply : Type :=
| RequestException (msg : string)
| Response (text : str).

Definition quote_char : N := 34.
Definition comma : N := 44.

Section Methods.

Variable unicode_digit : N -> bool.
Variable float_of_str : str -> outcome float.
Variable strptime : str -> outcome datetime.
Variable http_get : str -> reply.
Variable _get_historical_data : Manager -> outcome unit * Manager.

(** The body of the [try] of [_get_realtime_data], from the body text
    on.  The entries of the dict are evaluated in the order written. *)
Definition parse_quote (text : str) : outcome Quote :=
  data_str ← index (split quote_char text) 1;
  match data_str with
  | [] => Raises (mkError "ValueError" "获取实时数据失败")
  | _ =>
      let fields := split comma data_str in
      if (length fields <? 32)%nat then Raises (mkError "ValueError" "实时数据格式错误")
      else
        name ← index fields 0;
        current ← (index fields 3 ≫= float_of_str);
        open ← (index fields 1 ≫= float_of_str);
        high ← (index fields 4 ≫= float_of_str);
        low ← (index fields 5 ≫= float_of_str);
        close ← (index fields 2 ≫= float_of_str);
        d ← index fields 30;
        t ← index fields 31;
        stamp ← strptime (d ++ lit " " ++ t);
        Returns (mkQuote name current open high low close stamp)
  end.

Definition realtime_url (m : Manager) : str :=
  lit "http://hq.sinajs.cn/list=" ++ current_stock_code m.

Definition _get_realtime_data (m : Manager) : outcome unit * Manager :=
  match http_get (realtime_url m) with
  | RequestException msg =>
      (Raises (mkError "ConnectionError" ("获取实时数据失败: " +:+ msg)), m)
  | Response text =>
      match parse_quote text with
      | Returns q =>
          (Returns (), mkManager (current_stock_code m) (historical_data m) (Some q))
      | Raises e =>
          if caught_by ["ValueError"; "IndexError"] e
          then (Raises (mkError "ValueError" ("解析实时数据失败: " +:+ error_message e)), m)
          else (Raises e, m)
      end
  end.

Definition request_stock_data (stock_code : str) (m : Manager) : outcome unit * Manager :=
  if negb (startswith stock_code (lit "sh") || startswith stock_code (lit "sz")) then
    (Raises (mkError "ValueError" "股票代码格式错误：必须以'sh'或'sz'开头"), m)
  else
    let code := drop 2 stock_code in
    if negb (length code =? 6)%nat || negb (isdigit unicode_digit code) then
      (Raises (mkError "ValueError" "股票代码格式错误：必须为6位数字"), m)
    else
      let m := mkManager stock_code (historical_data m) (latest_data m) in
      match _get_historical_data m with
      | (Returns _, m) => _get_realtime_data m
      | (Raises e, m) => (Raises e, m)
      end.

End Methods.

End Requests.
Export Requests.

(** ** Further vocabulary: stock codes and reply texts *)
Module Texts.

(** A code as the exchanges list it and the manager accepts it: six
    digits, the first one 6, 0 or 3. *)
Definition listed_code (digit : N -> bool) (code : str) : bool :=
  (length code =? 6)%nat && forallb digit code
  && (startswith code (lit "6") || startswith code (lit "0") || startswith code (lit "3")).

(** [sep.join(pieces)]. *)
Fixpoint join (sep : N) (pieces : list str) : str :=
  match pieces with
  | [] => []
  | [p] => p
  | p :: rest => p ++ sep :: join sep rest
  end.

(** [data] is what the text holds between its first double quote and
    the next one (or the end of the text, when there is no other). *)
Definition quoted (text data : str) : Prop :=
  exists pre post,
    text = pre ++ quote_char :: data ++ post
    /\ (quote_char ∉ pre) /\ (quote_char ∉ data)
    /\ (post = [] \/ exists rest, post = quote_char :: rest).

(** The quote a reply with the given fields is read as: the name, the
    five prices and the time stamp come from the fields 0 to 5, 30 and
    31. *)
Definition quote_of_fields (float_of_str : str -> outcome float)
    (strptime : str -> outcome datetime) (fields : list str) : outcome Quote :=
  name ← index fields 0;
  current ← (index fields 3 ≫= float_of_str);
  open ← (index fields 1 ≫= float_of_str);
  high ← (index fields 4 ≫= float_of_str);
  low ← (index fields 5 ≫= float_of_str);
  close ← (index fields 2 ≫= float_of_str);
  d ← index fields 30;
  t ← index fields 31;
  stamp ← strptime (d ++ lit " " ++ t);
  Returns (mkQuote name current open high low close stamp).

(** The manager with a new quote stored. *)
Definition with_quote (m : Manager) (q : Quote) : Manager :=
  mkManager (current_stock_code m) (historical_data m) (Some q).

(** Interpreter functions for the examples: the ASCII digits, a [float]
    and a [strptime] that accept one text each. *)
Definition ascii_digit (c : N) : bool := (48 <=? c)%N && (c <=? 57)%N.

Definition float_of_one (s : str) : outcome float :=
  if bool_decide (s = lit "1") then Returns 1%float
  else Raises (mkError "ValueError" "could not convert string to float").

Definition strptime_of_noon (s : str) : outcome datetime :=
  if bool_decide (s = lit "2024-01-02 12:00:00") then Returns (mkDatetime 2024 1 2 12 0 0)
  else Raises (mkError "ValueError" "time data does not match format").

(** A network whose replies are all the same text. *)
Definition replies (text : str) (url : str) : reply := Response text.

(** A history fetch that stores nothing and returns. *)
Definition keeps_history (m : Manager) : outcome unit * Manager := (Returns (), m).

(** Reply texts: no payload for an unknown code, and a payload of 33
    fields. *)
Definition empty_reply : str :=
  lit "var hq_str_sh999999=" ++ [quote_char; quote_char] ++ lit ";".

Definition full_fields : list str :=
  [lit "PFYH"; lit "1"; lit "1"; lit "1"; lit "1"; lit "1"]
  ++ replicate 24 (lit "0") ++ [lit "2024-01-02"; lit "12:00:00"; lit "00"].

Definition full_reply : str :=
  lit "var hq_str_sh600000=" ++ quote_char :: join comma full_fields
  ++ quote_char :: lit ";".

(** Another reply with the same name, prices and time stamp: exactly 32
    fields, other values in the fields between, other text around. *)
Definition other_fields : list str :=
  [lit "PFYH"; lit "1"; lit "1"; lit "1"; lit "1"; lit "1"]
  ++ replicate 24 (lit "7") ++ [lit "2024-01-02"; lit "12:00:00"].

Definition other_reply : str :=
  lit "x=" ++ quote_char :: join comma other_fields.

End Texts.
Export Texts.


(** * Properties *)

(** ** Facts about binary64 values, from the specification of the
    primitive operations *)
Section FloatFacts.

Local Open Scope float_scope.

Lemma SFcompare_refl (x : spec_float) :
  x <> S754_nan -> SFcompare x x = Some Eq.
Proof.
  destruct x as [[]|[]| |[] m e]; simpl; try congruence; intros _.
  - rewrite Z.compare_refl, Pos.compare_cont_refl. reflexivity.
  - rewrite Z.compare_refl, Pos.compare_cont_refl. reflexivity.
Qed.

Lemma is_nan_Prim2SF (x : float) :
  is_nan x = true -> Prim2SF x = S754_nan.
Proof.
  unfold is_nan. rewrite FloatAxioms.eqb_spec. unfold SFeqb. intros H.
  destruct (Prim2SF x) eqn:E; try reflexivity;
    rewrite SFcompare_refl in H by congruence; discriminate.
Qed.

(** A NaN equals nothing. *)
Lemma is_nan_eqb (x y : float) : is_nan x = true -> (x =? y) = false.
Proof.
  intros H. rewrite FloatAxioms.eqb_spec, (is_nan_Prim2SF x H). reflexivity.
Qed.

(** A float above zero is a positive finite number or plus infinity. *)
Lemma gt_zero_Prim2SF (x : float) :
  (0 <? x) = true ->
  Prim2SF x = S754_infinity false \/ exists m e, Prim2SF x = S754_finite false m e.
Proof.
  rewrite FloatAxioms.ltb_spec. change (Prim2SF 0) with (S754_zero false).
  unfold SFltb. destruct (Prim2SF x) as [s|[]| |[] m e]; simpl; try discriminate; eauto.
Qed.

(** A float equal to zero is one of the two zeros. *)
Lemma eq_zero_Prim2SF (x : float) :
  (x =? 0) = true -> exists s, Prim2SF x = S754_zero s.
Proof.
  rewrite FloatAxioms.eqb_spec. change (Prim2SF 0) with (S754_zero false).
  unfold SFeqb. destruct (Prim2SF x) as [s|[]| |[] m e]; simpl; try discriminate; eauto.
Qed.

(** Rounding keeps the sign it is given. *)
Lemma binary_round_aux_sign (sx : bool) (mx ex : Z) (lx : location) :
  match binary_round_aux prec emax sx mx ex lx with
  | S754_zero s | S754_infinity s | S754_finite s _ _ => s = sx
  | S754_nan => True
  end.
Proof.
  unfold binary_round_aux.
  destruct (shr_fexp prec emax mx ex lx) as [mrs' e'].
  destruct (shr_fexp prec emax _ e' loc_Exact) as [mrs'' e''].
  destruct (shr_m mrs''); [reflexivity| |exact I].
  destruct (e'' <=? emax - prec)%Z; reflexivity.
Qed.

(** The quotient of two floats above zero is never negative. *)
Lemma div_pos_sign (x y : float) :
  (0 <? x) = true -> (0 <? y) = true ->
  match Prim2SF (x / y) with
  | S754_zero s | S754_infinity s | S754_finite s _ _ => s = false
  | S754_nan => True
  end.
Proof.
  intros Hx Hy. rewrite FloatAxioms.div_spec.
  destruct (gt_zero_Prim2SF x Hx) as [->|(mx & ex & ->)],
           (gt_zero_Prim2SF y Hy) as [->|(my & ey & ->)]; simpl; try reflexivity; try exact I.
  unfold SF64div, SFdiv.
  destruct (SFdiv_core_binary prec emax (Z.pos mx) ex (Z.pos my) ey) as [[mz ez] lz].
  apply (binary_round_aux_sign false).
Qed.

Lemma trunc_mag_nonneg (m : positive) (e : Z) : (0 <= trunc_mag m e)%Z.
Proof. unfold trunc_mag. apply Z.shiftl_nonneg. lia. Qed.

(** [int(x / y)] is a non-negative integer when [x > 0] and [y > 0]. *)
Lemma int_of_float_div_nonneg (x y : float) (n : Z) :
  (0 <? x) = true -> (0 <? y) = true ->
  int_of_float (x / y) = Ok n -> (0 <= n)%Z.
Proof.
  intros Hx Hy. pose proof (div_pos_sign x y Hx Hy) as Hs.
  unfold int_of_float. destruct (Prim2SF (x / y)) as [s|s| |s m e]; try discriminate.
  - intros [= <-]. lia.
  - subst s. intros [= <-]. simpl. apply trunc_mag_nonneg.
Qed.



(** *** Rounding never turns a product by [sqrt 252] into zero *)

Lemma digits2_pos_bounds (p : positive) :
  (2 ^ (Zpos (digits2_pos p) - 1) <= Zpos p < 2 ^ Zpos (digits2_pos p))%Z.
Proof.
  induction p as [p IH|p IH|]; simpl digits2_pos.
  - rewrite Pos2Z.inj_succ.
    replace (Z.succ (Zpos (digits2_pos p)) - 1)%Z
      with (Z.succ (Zpos (digits2_pos p) - 1)) by lia.
    rewrite !Z.pow_succ_r by lia. lia.
  - rewrite Pos2Z.inj_succ.
    replace (Z.succ (Zpos (digits2_pos p)) - 1)%Z
      with (Z.succ (Zpos (digits2_pos p) - 1)) by lia.
    rewrite !Z.pow_succ_r by lia. lia.
  - simpl. lia.
Qed.

(** One right shift halves a non-negative mantissa. *)
Lemma shr_1_m (r : shr_record) : (0 <= shr_m r)%Z -> shr_m (shr_1 r) = (shr_m r / 2)%Z.
Proof.
  intros H. rewrite <- Z.div2_div.
  destruct r as [m r s]. simpl in *. destruct m as [|[p|p|]|p]; try reflexivity. lia.
Qed.

Lemma pow2_pos (n : Z) : (0 <= n)%Z -> (0 < 2 ^ n)%Z.
Proof. intros H. apply Z.pow_pos_nonneg; lia. Qed.

Lemma iter_shr_1_m (n : positive) (r : shr_record) :
  (0 <= shr_m r)%Z -> shr_m (SpecFloat.iter_pos shr_1 n r) = (shr_m r / 2 ^ Zpos n)%Z.
Proof.
  revert r. induction n as [n IH|n IH|]; intros r H.
  - change (SpecFloat.iter_pos shr_1 n~1 r) with (SpecFloat.iter_pos shr_1 n (SpecFloat.iter_pos shr_1 n (shr_1 r))).
    pose proof (pow2_pos (Zpos n) ltac:(lia)) as Hp.
    assert (H1 : (0 <= shr_m (shr_1 r))%Z)
      by (rewrite shr_1_m by exact H; apply Z.div_pos; lia).
    assert (H2 : (0 <= shr_m (SpecFloat.iter_pos shr_1 n (shr_1 r)))%Z)
      by (rewrite IH by exact H1; apply Z.div_pos; lia).
    rewrite (IH _ H2), (IH _ H1), (shr_1_m _ H).
    rewrite !Z.div_div by lia. f_equal.
    replace (Zpos n~1) with (1 + Zpos n + Zpos n)%Z by lia.
    rewrite !Z.pow_add_r by lia. rewrite Z.pow_1_r. ring.
  - change (SpecFloat.iter_pos shr_1 n~0 r) with (SpecFloat.iter_pos shr_1 n (SpecFloat.iter_pos shr_1 n r)).
    pose proof (pow2_pos (Zpos n) ltac:(lia)) as Hp.
    assert (H2 : (0 <= shr_m (SpecFloat.iter_pos shr_1 n r))%Z)
      by (rewrite IH by exact H; apply Z.div_pos; lia).
    rewrite (IH _ H2), (IH _ H).
    rewrite !Z.div_div by lia. f_equal.
    replace (Zpos n~0) with (Zpos n + Zpos n)%Z by lia.
    rewrite !Z.pow_add_r by lia. ring.
  - change (SpecFloat.iter_pos shr_1 1 r) with (shr_1 r). rewrite shr_1_m by exact H. reflexivity.
Qed.

(** Shifting a mantissa to its binary64 exponent keeps at least its
    leading bit, as long as the value lies above the smallest subnormal. *)
Lemma shr_fexp_pos (p : positive) (e : Z) (l : location) :
  (-1074 - e < Zpos (digits2_pos p))%Z ->
  (0 < shr_m (fst (shr_fexp prec emax (Zpos p) e l)))%Z
  /\ (-1074 <= snd (shr_fexp prec emax (Zpos p) e l))%Z.
Proof.
  intros H. unfold shr_fexp. simpl Zdigits2.
  change (fexp prec emax (Zpos (digits2_pos p) + e))
    with (Z.max (Zpos (digits2_pos p) + e - 53) (-1074)).
  set (d := Zpos (digits2_pos p)) in *.
  pose proof (digits2_pos_bounds p) as [Hlo _]. fold d in Hlo.
  assert (Hm : shr_m (shr_record_of_loc (Zpos p) l) = Zpos p)
    by (destruct l as [|[]]; reflexivity).
  unfold shr.
  destruct (Z.max (d + e - 53) (-1074) - e)%Z as [|n|n] eqn:En; simpl fst; simpl snd.
  - rewrite Hm. lia.
  - rewrite iter_shr_1_m by (rewrite Hm; lia). rewrite Hm. split; [|lia].
    apply Z.div_str_pos. split; [apply Z.pow_pos_nonneg; lia|].
    apply Z.le_trans with (2 ^ (d - 1))%Z; [|exact Hlo].
    apply Z.pow_le_mono_r; lia.
  - rewrite Hm. lia.
Qed.

Lemma round_nearest_even_ge (m : Z) (l : location) : (m <= round_nearest_even m l)%Z.
Proof. destruct l as [|[]]; simpl; try lia. destruct (Z.even m); lia. Qed.




End FloatFacts.

(** ** The result monad *)
Section Monad.

Lemma bind_Ok {A B} (m : result A) (f : A -> result B) (b : B) :
  m ≫= f = Ok b <-> exists a, m = Ok a /\ f a = Ok b.
Proof.
  destruct m as [a|e]; simpl; split.
  - eauto.
  - intros (a' & [= <-] & H). exact H.
  - discriminate.
  - intros (a' & [=] & _).
Qed.

End Monad.

(** Splits a hypothesis [m ≫= f = Ok b] into its two halves. *)
Ltac bind_inv H :=
  let a := fresh "a" in
  let Ha := fresh "H" a in
  apply bind_Ok in H; destruct H as (a & Ha & H).

(** ** The day loop *)
Section DayLoop.

Lemma shares_of_app (k : side) (l1 l2 : list Trade) :
  shares_of k (l1 ++ l2) = (shares_of k l1 + shares_of k l2)%Z.
Proof.
  induction l1 as [|t l1 IH]; simpl; [reflexivity|].
  rewrite IH. destruct (side_eqb (trade_type t) k); lia.
Qed.

Lemma record_value_state (st st' : SimState) (d : date) (row : Row) :
  record_value st d row = Ok st' ->
  cash st' = cash st /\ position st' = position st /\ trades st' = trades st.
Proof.
  unfold record_value. intros H. bind_inv H. bind_inv H.
  injection H as <-. auto.
Qed.

Lemma close_ok_get (row : Row) :
  close_ok row = true ->
  exists c, row_get row "close" = Ok c /\ (0 <? c)%float = true.
Proof.
  unfold close_ok, row_get, positive_finite.
  destruct (row !! "close") as [c|]; [|discriminate].
  intros H%andb_true_iff. exists c. tauto.
Qed.

Lemma on_signal_balanced (st st' : SimState) (d : date) (row : Row) (signal : float) :
  close_ok row = true -> balanced st ->
  on_signal st d row signal = Ok st' -> balanced st'.
Proof.
  intros Hc (Hpos & Hbal & Hsell). unfold on_signal.
  destruct (close_ok_get row Hc) as (c & Hget & Hc0).
  destruct (signal =? 1)%float.
  - destruct (gtb (cash st) 0) eqn:Hcash; [|intros [= <-]; repeat split; assumption].
    rewrite Hget. simpl. intros H. bind_inv H. bind_inv H. injection H as <-.
    pose proof (int_of_float_div_nonneg _ _ _ Hcash Hc0 Ha) as Hn.
    unfold balanced; simpl. rewrite !shares_of_app. simpl.
    repeat split; [lia|lia|].
    apply Forall_app. split; [assumption|]. constructor; [discriminate|constructor].
  - destruct (signal =? -1)%float; [|intros [= <-]; repeat split; assumption].
    destruct (0 <? position st)%Z eqn:Hp; [|intros [= <-]; repeat split; assumption].
    rewrite Hget. simpl. intros H. bind_inv H. injection H as <-.
    apply Z.ltb_lt in Hp.
    unfold balanced; simpl. rewrite !shares_of_app. simpl.
    repeat split; [lia|lia|].
    apply Forall_app. split; [assumption|]. constructor; [intros _; exact Hp|constructor].
Qed.

Lemma step_balanced (st st' : SimState) (r : date * Row) :
  close_ok r.2 = true -> balanced st -> step st r = Ok st' -> balanced st'.
Proof.
  intros Hc Hb. unfold step. intros H. bind_inv H. bind_inv H.
  pose proof (on_signal_balanced _ _ _ _ _ Hc Hb Ha0) as Hb'.
  apply record_value_state in H as (_ & Hp & Ht).
  destruct Hb' as (H1 & H2 & H3). unfold balanced. rewrite Hp, Ht. auto.
Qed.

Lemma simulate_balanced (rows : list (date * Row)) (st st' : SimState) :
  Forall (fun r : date * Row => close_ok r.2 = true) rows ->
  balanced st -> simulate rows st = Ok st' -> balanced st'.
Proof.
  intros Hrows. revert st.
  induction Hrows as [|r rows Hr _ IH]; intros st Hb; simpl.
  - intros [= <-]. exact Hb.
  - intros H. bind_inv H. eapply IH; [|exact H].
    eapply step_balanced; eassumption.
Qed.

Lemma init_state_balanced (c : float) : balanced (init_state c).
Proof. repeat split; simpl; [lia|constructor]. Qed.

End DayLoop.

(** ** Claims about the day loop *)
Section DayLoopClaims.

Local Open Scope float_scope.

(** In exact arithmetic the sizing rule is safe: the floor of
    [cash / close] shares never costs more than the cash. *)
Lemma floor_sizing_exact (c p : Q) :
  (0 < p)%Q -> (0 <= c)%Q ->
  (inject_Z (Qfloor (c / p)) * p <= c)%Q /\ (0 <= Qfloor (c / p))%Z.
Proof.
  intros Hp Hc. split.
  - apply Qle_trans with ((c / p) * p)%Q.
    + apply Qmult_le_compat_r; [apply Qfloor_le|apply Qlt_le_weak; exact Hp].
    + rewrite Qmult_comm, Qmult_div_r; [apply Qle_refl|].
      intros H. rewrite H in Hp. discriminate.
  - change 0%Z with (Qfloor 0). apply Qfloor_resp_le.
    apply Qle_shift_div_l; [exact Hp|]. rewrite Qmult_0_l. exact Hc.
Qed.

(** C1, evaluated on the code.  The claim: with positive finite closes
    and a non-negative initial cash, the simulated cash is never below
    zero at a recorded equity point.  The code breaks it: with an initial
    cash of 1022.0 and a buy trigger at a close of 5.11 (the binary64
    value [m * 2^e] just above 5.11), the exact quotient lies just below
    200 but [cash / close] rounds to 200.0, so [int] sizes 200 shares;
    they cost more than the cash, exactly ([200 * m * 2^e > 1022]) and as
    computed ([200 * 5.11] is 1022.0000000000001), and the cash left after
    the buy is negative when the day's equity is recorded. *)
Theorem cash_negative_after_buy :
  valid_closes one_buy /\ nonneg 1022 = true /\
  (exists m e, Prim2SF 5.11 = S754_finite false m e
               /\ (1022 * 2 ^ (- e) < 200 * Zpos m)%Z) /\
  (1022 / 5.11 = 200) /\
  exists st,
    simulate (iterrows one_buy) (init_state 1022) = Ok st
    /\ trades st = [mkTrade 1%Z buy 5.11 200%Z 1022.0000000000001]
    /\ (cash st <? 0) = true
    /\ nonneg (cash st) = false
    /\ length (portfolio_value st) = 1%nat
    /\ is_ok (backtest one_buy 1022) = true.
Proof.
  split; [|split; [reflexivity|split; [|split; [reflexivity|]]]].
  - unfold valid_closes. vm_compute iterrows. repeat constructor.
  - eexists _, _. split; [vm_compute; reflexivity|]. vm_compute. reflexivity.
  - eexists. split; [vm_compute; reflexivity|]. vm_compute. auto 10.
Qed.

(** C2.  On a frame whose closes are positive finite numbers, after
    every simulated day (every prefix of the rows) the position is at
    least zero, it equals the shares of all buy trades minus the shares
    of all sell trades of the log, and every sell trade sold a positive
    position (no sale from a flat state); the end of the simulation is
    the prefix of all rows. *)
Theorem position_nonneg_and_balanced
    (df : DataFrame) (initial_cash : float) (n : nat) (st : SimState) :
  valid_closes df ->
  simulate (take n (iterrows df)) (init_state initial_cash) = Ok st ->
  (0 <= position st)%Z
  /\ position st = (shares_of buy (trades st) - shares_of sell (trades st))%Z
  /\ Forall (fun t => trade_type t = sell -> (0 < trade_shares t)%Z) (trades st).
Proof.
  intros Hdf Hsim.
  apply (simulate_balanced (take n (iterrows df)) (init_state initial_cash) st);
    [|apply init_state_balanced|exact Hsim].
  apply Forall_take. exact Hdf.
Qed.

Lemma position_nonneg_and_balanced_witness :
  (0 <= position three_days_end)%Z
  /\ position three_days_end
     = (shares_of buy (trades three_days_end) - shares_of sell (trades three_days_end))%Z
  /\ Forall (fun t => trade_type t = sell -> (0 < trade_shares t)%Z) (trades three_days_end).
Proof.
  apply (position_nonneg_and_balanced three_days 100 3 three_days_end).
  - unfold valid_closes. vm_compute iterrows. repeat constructor.
  - vm_compute. reflexivity.
Defined.

(** The closes must be positive for the position to stay non-negative:
    at a negative close [int(cash / close)] is negative and the "buy"
    opens a short position. *)
Example negative_close_goes_short :
  exists st,
    simulate (iterrows negative_close) (init_state 100) = Ok st
    /\ position st = (-10)%Z
    /\ trades st = [mkTrade 1 buy (-10) (-10) 100].
Proof. eexists. split; [vm_compute; reflexivity|]. split; reflexivity. Qed.

(** A zero cash is not above zero. *)
Lemma eq_zero_not_gt (x : float) : (x =? 0) = true -> gtb x 0 = false.
Proof.
  intros H. destruct (eq_zero_Prim2SF x H) as [s Hs].
  unfold gtb. rewrite FloatAxioms.ltb_spec, Hs. reflexivity.
Qed.

(** C3, refuted as stated.  After the first buy of [two_buys] (cash 105,
    close 10) the simulator holds 10 shares and 5 in cash; the second +1
    trigger, at a close of 5, buys one more share and appends a second
    buy trade, although the simulator is long. *)
Lemma buy_while_long : ~ no_buy_when_long_or_broke.
Proof.
  intros H.
  specialize (H two_buys_day1
                (mkSim 0 11 [mkTrade 1 buy 10 10 100; mkTrade 2 buy 5 1 5]
                       [(1%Z, 105%float); (2%Z, 55%float)])
                2%Z two_buys_row2 1).
  assert (Hlen : forall a b : list Trade, a = b -> length a = length b)
    by (intros a b ->; reflexivity).
  apply Hlen in H; [discriminate H|reflexivity|reflexivity|left; reflexivity|reflexivity].
Qed.

(** The two days of [two_buys] from a cash of 105: the state before the
    second trigger is the one used above, and the run logs two buys. *)
Example two_buys_backtest :
  simulate (take 1 (iterrows two_buys)) (init_state 105) = Ok two_buys_day1
  /\ exists res,
      backtest two_buys 105 = Ok res
      /\ result_trades res = [mkTrade 1 buy 10 10 100; mkTrade 2 buy 5 1 5]
      /\ trade_count (stats res) = 2%nat.
Proof.
  split; [reflexivity|]. eexists. split; [vm_compute; reflexivity|].
  split; reflexivity.
Qed.

(** C3, amended.  On a day whose trigger is +1: when the cash is 0 (or,
    more generally, not above 0) no trade occurs, the log, the cash and
    the position are unchanged and the day adds nothing to the trade
    count; when the cash is above 0 the simulator buys [int(cash / close)]
    shares and appends one buy trade, whether it is flat or long. *)
Theorem buy_trigger_guarded_by_cash
    (st st' : SimState) (d : date) (row : Row) (signal : float) :
  row_signal row = Ok signal -> (signal =? 1) = true ->
  step st (d, row) = Ok st' ->
  (((cash st =? 0) = true \/ gtb (cash st) 0 = false) ->
     trades st' = trades st /\ cash st' = cash st /\ position st' = position st
     /\ length (trades st') = length (trades st))
  /\ (gtb (cash st) 0 = true ->
      exists close shares cost,
        row !! "close" = Some close
        /\ int_of_float (cash st / close) = Ok shares
        /\ mul_int_float shares close = Ok cost
        /\ trades st' = trades st ++ [mkTrade d buy close shares cost]
        /\ position st' = (position st + shares)%Z
        /\ cash st' = cash st - cost).
Proof.
  intros Hsig H1. unfold step. simpl. rewrite Hsig. simpl.
  unfold on_signal. rewrite H1. intros Hstep. split.
  - intros Hc. assert (Hgt : gtb (cash st) 0 = false)
      by (destruct Hc as [Hc|Hc]; [apply eq_zero_not_gt|]; exact Hc).
    rewrite Hgt in Hstep. simpl in Hstep.
    apply record_value_state in Hstep as (-> & -> & ->). auto.
  - intros Hgt. rewrite Hgt in Hstep.
    bind_inv Hstep. bind_inv Ha. bind_inv Ha. bind_inv Ha. injection Ha as <-.
    apply record_value_state in Hstep as (-> & -> & ->). simpl.
    unfold row_get in Ha0. destruct (row !! "close") as [c|] eqn:Hc; [|discriminate].
    injection Ha0 as ->. exists a0, a1, a2. auto 10.
Qed.

Lemma buy_trigger_guarded_by_cash_witness :
  (((cash broke =? 0) = true \/ gtb (cash broke) 0 = false) ->
     trades (mkSim 0 0 [] [(7%Z, 0%float)]) = trades broke
     /\ cash (mkSim 0 0 [] [(7%Z, 0%float)]) = cash broke
     /\ position (mkSim 0 0 [] [(7%Z, 0%float)]) = position broke
     /\ length (trades (mkSim 0 0 [] [(7%Z, 0%float)])) = length (trades broke))
  /\ (gtb (cash broke) 0 = true ->
      exists close shares cost,
        buy_row !! "close" = Some close
        /\ int_of_float (cash broke / close) = Ok shares
        /\ mul_int_float shares close = Ok cost
        /\ trades (mkSim 0 0 [] [(7%Z, 0%float)]) = trades broke ++ [mkTrade 7 buy close shares cost]
        /\ position (mkSim 0 0 [] [(7%Z, 0%float)]) = (position broke + shares)%Z
        /\ cash (mkSim 0 0 [] [(7%Z, 0%float)]) = cash broke - cost).
Proof.
  apply (buy_trigger_guarded_by_cash broke (mkSim 0 0 [] [(7%Z, 0%float)]) 7%Z buy_row 1);
    vm_compute; reflexivity.
Defined.

(** A day with a not-a-number trigger only records the equity. *)
Lemma step_nan_trigger (st : SimState) (d : date) (row : Row) (t : float) :
  row_signal row = Ok t -> is_nan t = true ->
  step st (d, row) = record_value st d row.
Proof.
  intros Hsig Hnan. unfold step. simpl. rewrite Hsig. simpl. unfold on_signal.
  rewrite !(is_nan_eqb t) by exact Hnan. reflexivity.
Qed.

(** So does a day with a trigger of 0. *)
Lemma step_zero_trigger (st : SimState) (d : date) (row : Row) :
  row_signal row = Ok 0 -> step st (d, row) = record_value st d row.
Proof. intros Hsig. unfold step. simpl. rewrite Hsig. reflexivity. Qed.

Lemma record_value_close (st : SimState) (d : date) (row row0 : Row) :
  row0 !! "close" = row !! "close" -> record_value st d row0 = record_value st d row.
Proof. intros H. unfold record_value, row_get. rewrite H. reflexivity. Qed.

(** C5.  A day whose trigger is not-a-number runs exactly as the same
    day with a trigger of 0: both reduce to recording the day's equity,
    so no trade is appended, cash and position are unchanged, and
    [cash + position * close] is appended to the equity curve. *)
Theorem nan_trigger_is_hold
    (st : SimState) (d : date) (row row0 : Row) (t : float) :
  row_signal row = Ok t -> is_nan t = true ->
  row_signal row0 = Ok 0 -> row0 !! "close" = row !! "close" ->
  step st (d, row) = step st (d, row0)
  /\ step st (d, row) = record_value st d row
  /\ (forall close held,
        row !! "close" = Some close ->
        mul_int_float (position st) close = Ok held ->
        step st (d, row)
        = Ok (mkSim (cash st) (position st) (trades st)
                (portfolio_value st ++ [(d, cash st + held)]))).
Proof.
  intros Hsig Hnan Hsig0 Hclose.
  rewrite (step_nan_trigger st d row t Hsig Hnan), (step_zero_trigger st d row0 Hsig0).
  split; [|split].
  - symmetry. apply record_value_close. exact Hclose.
  - reflexivity.
  - intros close held Hc Hheld. unfold record_value, row_get.
    rewrite Hc. simpl. rewrite Hheld. reflexivity.
Qed.

Lemma nan_trigger_is_hold_witness :
  step two_buys_day1 (2%Z, nan_row) = step two_buys_day1 (2%Z, hold_row)
  /\ step two_buys_day1 (2%Z, nan_row) = record_value two_buys_day1 2%Z nan_row
  /\ (forall close held,
        nan_row !! "close" = Some close ->
        mul_int_float (position two_buys_day1) close = Ok held ->
        step two_buys_day1 (2%Z, nan_row)
        = Ok (mkSim (cash two_buys_day1) (position two_buys_day1) (trades two_buys_day1)
                (portfolio_value two_buys_day1 ++ [(2%Z, cash two_buys_day1 + held)]))).
Proof.
  apply (nan_trigger_is_hold two_buys_day1 2%Z nan_row hold_row nan);
    vm_compute; reflexivity.
Defined.

(** The same over a whole run: replacing every not-a-number trigger by 0
    changes nothing in the simulation. *)
Lemma step_hold_nan (st : SimState) (d : date) (row : Row) :
  step st (d, hold_nan row) = step st (d, row).
Proof.
  unfold hold_nan. destruct (row !! trigger_column row) as [t|] eqn:Ht; [|reflexivity].
  destruct (is_nan t) eqn:Hnan; [|reflexivity].
  assert (Hsig : row_signal row = Ok t).
  { unfold row_signal, row_get. unfold trigger_column in Ht.
    destruct (row_contains row "position"); rewrite Ht; reflexivity. }
  assert (Hsig0 : row_signal (<[trigger_column row := 0]> row) = Ok 0).
  { unfold trigger_column. destruct (row_contains row "position") eqn:Hp;
      unfold row_signal, row_get, row_contains in *.
    - rewrite lookup_insert_eq. reflexivity.
    - rewrite lookup_insert_ne by discriminate.
      rewrite Hp, lookup_insert_eq. reflexivity. }
  rewrite (step_nan_trigger st d row t Hsig Hnan), (step_zero_trigger st d _ Hsig0).
  apply record_value_close. apply lookup_insert_ne.
  unfold trigger_column. destruct (row_contains row "position"); discriminate.
Qed.

Lemma simulate_hold_nan (rows : list (date * Row)) (st : SimState) :
  simulate ((fun r : date * Row => (r.1, hold_nan r.2)) <$> rows) st = simulate rows st.
Proof.
  revert st. induction rows as [|[d row] rows IH]; intros st; simpl; [reflexivity|].
  rewrite step_hold_nan. destruct (step st (d, row)) as [st'|e]; simpl; [apply IH|reflexivity].
Qed.

(** A trigger column that starts with a missing value, as the [position]
    column of the moving-average strategy does: the first day is a hold. *)
Example nan_first_backtest :
  exists res, backtest nan_first 100 = Ok res
              /\ result_trades res = [mkTrade 2 buy 12 8 96]
              /\ result_portfolio res = to_dict [(1%Z, 100); (2%Z, 100)].
Proof. eexists. split; [vm_compute; reflexivity|]. split; reflexivity. Qed.

(** [int] truncates toward zero and refuses the non-finite values;
    the conversion back rounds to nearest. *)
Example int_of_float_values :
  int_of_float 2.75 = Ok 2%Z /\ int_of_float (-2.75) = Ok (-2)%Z
  /\ int_of_float 1e3 = Ok 1000%Z
  /\ raises_class (int_of_float (1 / 0)) "OverflowError"
  /\ raises_class (int_of_float (0 / 0)) "ValueError".
Proof. repeat split; try reflexivity; eexists; split; reflexivity. Qed.

Example float_of_int_values :
  float_of_int 9098 = Ok 9098 /\ float_of_int (-3) = Ok (-3)
  /\ float_of_int (2 ^ 53 + 1) = Ok 9007199254740992
  /\ raises_class (float_of_int (2 ^ 1024)) "OverflowError".
Proof. repeat split; try reflexivity. eexists; split; reflexivity. Qed.

End DayLoopClaims.

(** ** Claims about [backtest] as a whole *)
Section BacktestClaims.

Local Open Scope float_scope.

Lemma iterrows_nil (df : DataFrame) : df_index df = [] -> iterrows df = [].
Proof. unfold iterrows. intros ->. reflexivity. Qed.

Lemma iterrows_cons (df : DataFrame) (d : date) (ds : list date) :
  df_index df = d :: ds -> exists rest, iterrows df = (d, row_at df 0) :: rest.
Proof. unfold iterrows. intros ->. simpl. eauto. Qed.

Lemma row_at_None (df : DataFrame) (i : nat) (c : string) :
  df_columns df !! c = None -> row_at df i !! c = None.
Proof. intros H. unfold row_at. rewrite lookup_omap, H. reflexivity. Qed.

(** C10, refuted as stated: on the frame without rows the exception is
    not the [IndexError] of indexing the last element of an empty series;
    it is the [KeyError] of [set_index('date')], two statements earlier. *)
Lemma no_rows_not_IndexError :
  backtest empty_frame 100000 = Raise (KeyError "None of ['date'] are in the columns")
  /\ ~ raises_class (backtest empty_frame 100000) "IndexError".
Proof.
  split; [reflexivity|]. intros (e & He & Hc).
  vm_compute in He. injection He as <-. discriminate Hc.
Qed.

(** C10, amended.  For a frame without rows [backtest] raises instead of
    returning a result: the loop body never runs, the frame built from
    the empty [portfolio_value] list has no [date] column, and
    [set_index('date')] raises [KeyError] at the start of the statistics
    block, before the last element of the series is indexed. *)
Theorem backtest_no_rows_raises (df : DataFrame) (initial_cash : float) :
  df_index df = [] ->
  backtest df initial_cash = Raise (KeyError "None of ['date'] are in the columns").
Proof.
  intros Hindex. unfold backtest.
  rewrite (iterrows_nil df Hindex). simpl.
  unfold performance, portfolio_series. simpl. reflexivity.
Qed.

Lemma backtest_no_rows_raises_witness :
  backtest no_rows 100000 = Raise (KeyError "None of ['date'] are in the columns").
Proof. apply (backtest_no_rows_raises no_rows 100000). reflexivity. Defined.

(** C4, refuted as stated: without a trigger column the exception is a
    [KeyError], the program defines no [MissingSignalError]. *)
Lemma missing_trigger_not_MissingSignalError :
  backtest no_trigger 100000 = Raise (KeyError "signal")
  /\ ~ raises_class (backtest no_trigger 100000) "MissingSignalError".
Proof.
  split; [reflexivity|]. intros (e & He & Hc).
  vm_compute in He. injection He as <-. discriminate Hc.
Qed.

(** C4, amended.  A frame with neither a [position] nor a [signal]
    column makes [backtest] raise [KeyError] and return nothing: on the
    first row [row['signal']] fails, and for a frame without rows
    [set_index('date')] fails. *)
Theorem missing_trigger_raises_KeyError (df : DataFrame) (initial_cash : float) :
  df_columns df !! "position" = None -> df_columns df !! "signal" = None ->
  backtest df initial_cash
  = Raise (KeyError match df_index df with
                    | [] => "None of ['date'] are in the columns"
                    | _ :: _ => "signal"
                    end).
Proof.
  intros Hp Hs. destruct (df_index df) as [|d ds] eqn:Hi.
  - unfold backtest. rewrite (iterrows_nil df Hi). reflexivity.
  - destruct (iterrows_cons df d ds Hi) as [rest Hrows].
    unfold backtest. rewrite Hrows. simpl. unfold step. simpl.
    unfold row_signal, row_contains, row_get.
    rewrite (row_at_None df 0 "position" Hp), (row_at_None df 0 "signal" Hs).
    reflexivity.
Qed.

Lemma missing_trigger_raises_KeyError_witness :
  backtest no_trigger 100000
  = Raise (KeyError match df_index no_trigger with
                    | [] => "None of ['date'] are in the columns"
                    | _ :: _ => "signal"
                    end).
Proof.
  apply (missing_trigger_raises_KeyError no_trigger 100000); reflexivity.
Defined.

Lemma backtest_Ok (df : DataFrame) (initial_cash : float) (res : BacktestResult) :
  backtest df initial_cash = Ok res ->
  exists st st_stats,
    simulate (iterrows df) (init_state initial_cash) = Ok st
    /\ performance initial_cash st = Ok st_stats
    /\ res = mkResult st_stats (trades st) (to_dict (portfolio_value st)).
Proof.
  unfold backtest. intros H. bind_inv H. bind_inv H. injection H as <-. eauto.
Qed.





Lemma binary_round_aux_positive (sx : bool) (p : positive) (e : Z) (l : location) :
  (-1074 - e < Zpos (digits2_pos p))%Z ->
  binary_round_aux prec emax sx (Zpos p) e l = S754_infinity sx
  \/ exists m e', binary_round_aux prec emax sx (Zpos p) e l = S754_finite sx m e'.
Proof.
  intros H. unfold binary_round_aux.
  pose proof (shr_fexp_pos p e l H) as [H1 H2].
  destruct (shr_fexp prec emax (Zpos p) e l) as [mrs' e']. simpl in H1, H2.
  pose proof (round_nearest_even_ge (shr_m mrs') (loc_of_shr_record mrs')) as Hr.
  destruct (round_nearest_even (shr_m mrs') (loc_of_shr_record mrs')) as [|p1|p1] eqn:E1;
    try lia.
  assert (H' : (-1074 - e' < Zpos (digits2_pos p1))%Z) by lia.
  pose proof (shr_fexp_pos p1 e' loc_Exact H') as [H3 _].
  destruct (shr_fexp prec emax (Zpos p1) e' loc_Exact) as [mrs'' e'']. simpl in H3.
  destruct (shr_m mrs'') as [|p2|p2]; try lia.
  destruct (e'' <=? emax - prec)%Z; eauto.
Qed.

(** The float of a count: a positive number (finite, below [2^63]). *)
Lemma float_of_Z_positive (z : Z) :
  (0 < z < 2 ^ 63)%Z ->
  Prim2SF (float_of_Z z) = S754_infinity false
  \/ exists m e, Prim2SF (float_of_Z z) = S754_finite false m e.
Proof.
  intros Hz.
  assert (Hvalid : valid_binary (binary_normalize prec emax z 0 false) = true).
  { pose proof (Prim2SF_valid (of_uint63 (Uint63.of_Z z))) as Hv.
    rewrite FloatAxioms.of_uint63_spec, Uint63.of_Z_spec in Hv.
    rewrite Z.mod_small in Hv by (change Uint63.wB with (2 ^ 63)%Z; lia). exact Hv. }
  unfold float_of_Z. rewrite (Prim2SF_SF2Prim _ Hvalid).
  destruct z as [|p|p]; try lia.
  unfold binary_normalize, binary_round, shl_align.
  change (fexp prec emax (Zpos (digits2_pos p) + 0))
    with (Z.max (Zpos (digits2_pos p) + 0 - 53) (-1074)).
  destruct (Z.max (Zpos (digits2_pos p) + 0 - 53) (-1074) - 0)%Z as [|d|d] eqn:Ed;
    apply binary_round_aux_positive; lia.
Qed.

Lemma zero_div_count (z : Z) : (0 < z < 2 ^ 63)%Z -> 0 / float_of_Z z = 0.
Proof.
  intros Hz. apply Prim2SF_inj. rewrite FloatAxioms.div_spec.
  destruct (float_of_Z_positive z Hz) as [->|(m & e & ->)]; reflexivity.
Qed.


Lemma fsum_zeros (n : nat) : fsum (replicate n 0) = 0.
Proof.
  unfold fsum. induction n as [|n IH]; simpl; [reflexivity|].
  change (0 + 0) with 0. exact IH.
Qed.

Lemma dropna_zeros (n : nat) : dropna (replicate n 0) = replicate n 0.
Proof.
  unfold dropna. induction n as [|n IH]; simpl; [reflexivity|].
  rewrite filter_cons_True by reflexivity. rewrite IH. reflexivity.
Qed.

Lemma dropna_nan_zeros (n : nat) : dropna (nan :: replicate n 0) = replicate n 0.
Proof.
  unfold dropna. rewrite filter_cons_False by (simpl; discriminate).
  apply dropna_zeros.
Qed.


Lemma mean_zero_returns (n : nat) :
  (1 <= n)%nat -> (Z.of_nat n < 2 ^ 63)%Z -> mean (nan :: replicate n 0) = 0.
Proof.
  intros Hn Hb. unfold mean. rewrite dropna_nan_zeros.
  destruct n as [|n]; [lia|]. change (replicate (S n) 0) with (0 :: replicate n 0) at 1.
  cbv iota. rewrite fsum_zeros, length_replicate. apply zero_div_count. lia.
Qed.





(** From three points on, a flat curve at a nonzero value has returns
    of deviation 0 and reports a Sharpe ratio of 0. *)
Example flat_three_days_sharpe :
  exists res, backtest flat_three_days 100 = Ok res
              /\ sharpe_ratio (stats res) = 0 /\ volatility (stats res) = 0.
Proof. eexists. split; [vm_compute; reflexivity|]. split; reflexivity. Qed.

(** The three-day example of the specification. *)
Example three_days_backtest :
  exists res, backtest three_days 100 = Ok res
              /\ result_trades res = [mkTrade 1 buy 10 10 100; mkTrade 3 sell 8 10 80]
              /\ final_capital (stats res) = 80
              /\ total_return (stats res) = (-20)
              /\ trade_count (stats res) = 2%nat.
Proof. eexists. split; [vm_compute; reflexivity|]. repeat split; reflexivity. Qed.

End BacktestClaims.

(** ** Claims about the indicators and the MACD strategy *)
Section IndicatorClaims.

Local Open Scope float_scope.

Lemma getitem_setitem_eq (df : DataFrame) (c : string) (col : Series) :
  getitem (setitem df c col) c = Ok col.
Proof. unfold getitem, setitem. simpl. rewrite lookup_insert_eq. reflexivity. Qed.

Lemma getitem_setitem_ne (df : DataFrame) (c c' : string) (col : Series) :
  c <> c' -> getitem (setitem df c col) c' = getitem df c'.
Proof.
  intros H. unfold getitem, setitem. simpl. rewrite lookup_insert_ne by exact H.
  reflexivity.
Qed.

Lemma shift1_head (xs : Series) (x : float) : shift1 xs !! 0%nat = Some x -> x = nan.
Proof. unfold shift1. destruct xs; simpl; [discriminate|]. intros [= <-]. reflexivity. Qed.

(** A crossing mask is false on the first row: the previous day's values
    are missing there, and a comparison with a missing value is false. *)
Lemma cross_mask_first (today : list bool) (cmp : float -> float -> bool)
    (dif dea : Series) :
  cmp nan nan = false ->
  zip_with andb today (zip_with cmp (shift1 dif) (shift1 dea)) !! 0%nat <> Some true.
Proof.
  intros Hcmp H. apply lookup_zip_with_Some in H as (a & b & Hab & _ & Hb).
  apply lookup_zip_with_Some in Hb as (u & v & -> & Hu & Hv).
  apply shift1_head in Hu, Hv. subst u v. rewrite Hcmp, andb_false_r in Hab.
  discriminate.
Qed.

(** C9.  For a history with at least one row (and a [close] column),
    [macd_strategy] returns a frame whose [signal] column has one value
    per row, and the value on the first row is 0. *)
Theorem macd_first_signal_zero (hist : DataFrame) (close : Series) :
  df_index hist <> [] -> getitem hist "close" = Ok close ->
  exists res signal,
    macd_strategy hist = Ok res
    /\ getitem res "signal" = Ok signal
    /\ length signal = length (df_index hist)
    /\ signal !! 0%nat = Some 0.
Proof.
  intros Hrows Hclose. unfold macd_strategy, calculate_macd.
  rewrite Hclose. simpl.
  repeat (rewrite ?getitem_setitem_eq; rewrite ?getitem_setitem_ne by discriminate; simpl).
  unfold setitem_scalar, loc_set.
  repeat (rewrite ?getitem_setitem_eq; rewrite ?getitem_setitem_ne by discriminate; simpl).
  eexists _, _. split; [reflexivity|]. rewrite getitem_setitem_eq.
  split; [reflexivity|]. rewrite !length_imap, length_replicate.
  split; [reflexivity|].
  destruct (df_index hist) as [|d ds]; [congruence|]. simpl.
  set (dif := zip_with PrimFloat.sub _ _). set (dea := ewm_mean 9 dif).
  pose proof (cross_mask_first (zip_with gtb dif dea) PrimFloat.leb dif dea eq_refl) as Hg.
  pose proof (cross_mask_first (zip_with PrimFloat.ltb dif dea)
                (fun a b => PrimFloat.leb b a) dif dea eq_refl) as Hd.
  destruct (_ !! 0%nat) as [[]|] in Hd |- *; [congruence| |];
    destruct (_ !! 0%nat) as [[]|] in Hg |- *; congruence.
Qed.

Lemma macd_first_signal_zero_witness :
  exists res signal,
    macd_strategy rising_prices = Ok res
    /\ getitem res "signal" = Ok signal
    /\ length signal = length (df_index rising_prices)
    /\ signal !! 0%nat = Some 0.
Proof.
  apply (macd_first_signal_zero rising_prices [10; 11; 12; 14]).
  - simpl. discriminate.
  - reflexivity.
Defined.

(** A positive gain over a zero loss: the quotient is an infinity, and
    [100 - 100 / (1 + rs)] is exactly 100. *)
Lemma rsi_value_zero_loss (g l : float) :
  (l =? 0) = true -> (0 <? g) = true -> rsi_value g l = 100.
Proof.
  intros Hl Hg. destruct (eq_zero_Prim2SF l Hl) as [s Hs].
  assert (Hdiv : g / l = (if s then neg_infinity else infinity)).
  { apply Prim2SF_inj. rewrite FloatAxioms.div_spec, Hs.
    destruct (gt_zero_Prim2SF g Hg) as [->|(m & e & ->)]; destruct s; reflexivity. }
  unfold rsi_value. rewrite Hdiv. destruct s; reflexivity.
Qed.

(** No gain over a zero loss: the quotient 0 / 0 is not-a-number, and so
    is the RSI. *)
Lemma rsi_value_zero_zero (g l : float) :
  (l =? 0) = true -> (g =? 0) = true -> is_nan (rsi_value g l) = true.
Proof.
  intros Hl Hg. destruct (eq_zero_Prim2SF l Hl) as [s Hs].
  destruct (eq_zero_Prim2SF g Hg) as [s' Hs'].
  assert (Hdiv : g / l = nan).
  { apply Prim2SF_inj. rewrite FloatAxioms.div_spec, Hs, Hs'. reflexivity. }
  unfold rsi_value. rewrite Hdiv. reflexivity.
Qed.

(** C6, refuted as stated.  On three days at a constant price and a
    period of 2, the third row has a filled window without any loss
    (mean loss 0) and without any gain: its RSI is 0 / 0, not-a-number,
    not 100. *)
Lemma rsi_constant_prices_nan : ~ rsi_zero_loss_is_100.
Proof.
  intros H.
  specialize (H constant_prices
                (setitem constant_prices "RSI2" [nan; nan; nan])
                2%Z [10; 10; 10] [nan; 0; 0] [nan; nan; nan] 2%nat 0 nan).
  discriminate H; reflexivity.
Qed.

(** C6, amended.  On a row whose mean loss is exactly 0, the RSI is 100
    when the row's mean gain is above 0 (the quotient is an infinity),
    and not-a-number when the mean gain is 0 as well (constant prices
    over the window). *)
Theorem rsi_when_loss_is_zero
    (hist : DataFrame) (period : Z) (close gain loss : Series)
    (i : nat) (g l : float) :
  getitem hist "close" = Ok close ->
  rsi_gain period close = Ok gain ->
  rsi_loss period close = Ok loss ->
  gain !! i = Some g -> loss !! i = Some l -> (l =? 0) = true ->
  exists res rsi r,
    calculate_rsi hist period = Ok res
    /\ getitem res ("RSI" +:+ pretty period) = Ok rsi
    /\ rsi !! i = Some r
    /\ ((0 <? g) = true -> r = 100)
    /\ ((g =? 0) = true -> is_nan r = true).
Proof.
  intros Hclose Hgain Hloss Hg Hl Hzero.
  exists (setitem hist ("RSI" +:+ pretty period) (zip_with rsi_value gain loss)),
         (zip_with rsi_value gain loss), (rsi_value g l).
  split; [|split; [|split; [|split]]].
  - unfold calculate_rsi. rewrite Hclose. simpl. rewrite Hgain. simpl.
    rewrite Hloss. reflexivity.
  - apply getitem_setitem_eq.
  - rewrite lookup_zip_with, Hg. simpl. rewrite Hl. reflexivity.
  - intros Hpos. apply rsi_value_zero_loss; assumption.
  - intros Hz. apply rsi_value_zero_zero; assumption.
Qed.

Lemma rsi_when_loss_is_zero_witness :
  exists res rsi r,
    calculate_rsi rising_prices 2 = Ok res
    /\ getitem res ("RSI" +:+ pretty 2%Z) = Ok rsi
    /\ rsi !! 1%nat = Some r
    /\ ((0 <? 0.5) = true -> r = 100)
    /\ ((0.5 =? 0) = true -> is_nan r = true).
Proof.
  apply (rsi_when_loss_is_zero rising_prices 2 [10; 11; 12; 14]
           [nan; 0.5; 1; 1.5] [nan; 0; 0; 0] 1 0.5 0); reflexivity.
Defined.

(** After the warm-up, rising prices give an RSI of exactly 100. *)
Example rsi_rising_prices :
  exists res, calculate_rsi rising_prices 2 = Ok res
              /\ getitem res "RSI2" = Ok [nan; 100; 100; 100].
Proof. eexists. split; [vm_compute; reflexivity|reflexivity]. Qed.

Lemma length_shift1 (xs : Series) : length (shift1 xs) = length xs.
Proof. unfold shift1. rewrite length_take. simpl. lia. Qed.

Lemma length_diff (xs : Series) : length (diff xs) = length xs.
Proof. unfold diff. rewrite length_zip_with, length_shift1. lia. Qed.

Lemma length_where (cond : float -> bool) (other : float) (xs : Series) :
  length (where_ cond other xs) = length xs.
Proof. unfold where_. apply length_fmap. Qed.

Lemma imap_nan (h : nat -> float -> float) (ys : Series) :
  (forall i y, h i y = nan) -> imap h ys = replicate (length ys) nan.
Proof.
  revert h. induction ys as [|y ys IH]; intros h Hh; simpl; [reflexivity|].
  rewrite Hh. f_equal. apply IH. intros i y'. apply Hh.
Qed.

(** A window of 0 never holds an observation: every value is missing. *)
Lemma rolling_mean_zero (xs : Series) :
  rolling_mean 0 xs = Ok (replicate (length xs) nan).
Proof. unfold rolling_mean. simpl. f_equal. apply imap_nan. reflexivity. Qed.

Lemma rolling_mean_negative (window : Z) (xs : Series) :
  (window < 0)%Z ->
  rolling_mean window xs = Raise (ValueError "window must be an integer 0 or greater").
Proof.
  intros H. unfold rolling_mean. apply Z.ltb_lt in H. rewrite H. reflexivity.
Qed.

Lemma rolling_mean_nonneg (window : Z) (xs : Series) :
  (0 <= window)%Z -> is_ok (rolling_mean window xs) = true.
Proof.
  intros H. unfold rolling_mean. apply Z.ltb_ge in H. rewrite H. reflexivity.
Qed.

Lemma getitem_None (df : DataFrame) (c : string) :
  df_columns df !! c = None -> getitem df c = Raise (KeyError c).
Proof. unfold getitem. intros ->. reflexivity. Qed.

(** C7, refuted as stated.  On the frame a fresh manager holds,
    [calculate_rsi] raises [KeyError], not [InsufficientDataError]; the
    program defines neither that error nor [InvalidParameterError]. *)
Lemma indicators_raise_KeyError : ~ indicators_validate_input.
Proof.
  intros [H _].
  destruct (H initial_historical_data 14%Z eq_refl) as [(e & He & Hc) _].
  vm_compute in He. injection He as <-. discriminate Hc.
Qed.

(** C7, amended.  The indicator methods validate nothing themselves.
    Without a [close] column (the frame a fresh manager holds)
    [calculate_macd], [calculate_rsi] and [calculate_ma] with at least
    one period raise [KeyError('close')], and [calculate_ma] with no
    period returns the frame.  With a [close] column, whatever the
    number of rows: a negative period raises pandas' [ValueError] for the
    window; a period of 0 returns an indicator column of missing
    values; and no period of 0 or more makes a method fail. *)
Local Opaque rolling_mean.

Theorem indicators_do_not_validate (hist : DataFrame) :
  (df_columns hist !! "close" = None ->
     calculate_macd hist = Raise (KeyError "close")
     /\ (forall period, calculate_rsi hist period = Raise (KeyError "close"))
     /\ (forall period rest, calculate_ma hist (period :: rest) = Raise (KeyError "close"))
     /\ calculate_ma hist [] = Ok hist)
  /\ (forall close, getitem hist "close" = Ok close ->
     (forall period rest, (period < 0)%Z ->
        calculate_rsi hist period
        = Raise (ValueError "window must be an integer 0 or greater")
        /\ calculate_ma hist (period :: rest)
           = Raise (ValueError "window must be an integer 0 or greater"))
     /\ calculate_rsi hist 0 = Ok (setitem hist "RSI0" (replicate (length close) nan))
     /\ calculate_ma hist [0%Z] = Ok (setitem hist "MA0" (replicate (length close) nan))
     /\ (forall period, (0 <= period)%Z ->
           is_ok (calculate_rsi hist period) = true
           /\ is_ok (calculate_ma hist [period]) = true)
     /\ is_ok (calculate_macd hist) = true).
Proof.
  split.
  - intros Hnone. pose proof (getitem_None hist "close" Hnone) as Hget.
    unfold calculate_macd, calculate_rsi, calculate_ma. simpl.
    rewrite Hget. auto.
  - intros close Hget. split; [|split; [|split; [|split]]].
    + intros period rest Hneg.
      unfold calculate_rsi, calculate_ma, rsi_gain. simpl. rewrite Hget. simpl.
      rewrite !rolling_mean_negative by exact Hneg. auto.
    + unfold calculate_rsi, rsi_gain, rsi_loss. rewrite Hget. simpl.
      rewrite !rolling_mean_zero. simpl.
      rewrite length_fmap, !length_where, length_diff, zip_with_replicate.
      reflexivity.
    + unfold calculate_ma. simpl. rewrite Hget. simpl.
      rewrite rolling_mean_zero. reflexivity.
    + intros period Hp. unfold calculate_rsi, calculate_ma, rsi_gain, rsi_loss.
      simpl. rewrite Hget. simpl.
      assert (Hroll : forall xs, exists ys, rolling_mean period xs = Ok ys).
      { intros xs. pose proof (rolling_mean_nonneg period xs Hp) as Hok.
        destruct (rolling_mean period xs) as [ys|e]; [eauto|discriminate]. }
      split.
      * destruct (Hroll (where_ (fun d => gtb d 0) 0 (diff close))) as [gain ->].
        simpl.
        destruct (Hroll (PrimFloat.opp <$> where_ (fun d => d <? 0) 0 (diff close)))
          as [loss ->].
        reflexivity.
      * destruct (Hroll close) as [ma ->]. reflexivity.
    + unfold calculate_macd. rewrite Hget. simpl.
      repeat (rewrite ?getitem_setitem_eq; rewrite ?getitem_setitem_ne by discriminate; simpl).
      reflexivity.
Qed.

Local Transparent rolling_mean.

Lemma indicators_do_not_validate_witness :
  (calculate_macd empty_frame = Raise (KeyError "close")
   /\ (forall period, calculate_rsi empty_frame period = Raise (KeyError "close"))
   /\ (forall period rest,
         calculate_ma empty_frame (period :: rest) = Raise (KeyError "close"))
   /\ calculate_ma empty_frame [] = Ok empty_frame)
  /\ calculate_rsi rising_prices 0 = Ok (setitem rising_prices "RSI0" (replicate 4 nan))
  /\ calculate_ma rising_prices [0%Z] = Ok (setitem rising_prices "MA0" (replicate 4 nan)).
Proof.
  split.
  - apply (proj1 (indicators_do_not_validate empty_frame)). reflexivity.
  - pose proof (proj2 (indicators_do_not_validate rising_prices) [10; 11; 12; 14] eq_refl)
      as (_ & H1 & H2 & _).
    split; [exact H1|exact H2].
Defined.

(** The three strategies on a falling then rising history.  The
    moving-average strategy fills [position] with the day-over-day change
    of its 0/1 signal, whose first value is missing; the simulator holds
    on that day, buys on day 4 and sells on day 6. *)
Example ma_cross_wave :
  exists res,
    ma_cross_strategy wave 1 2 = Ok res
    /\ getitem res "MA2" = Ok [nan; 9.5; 8.5; 8.5; 10; 10.5]
    /\ getitem res "signal" = Ok [0; 0; 0; 1; 1; 0]
    /\ getitem res "position" = Ok [nan; 0; 0; 1; 0; -1]
    /\ exists bt,
        backtest res 100 = Ok bt
        /\ result_trades bt = [mkTrade 4 buy 9 11 99; mkTrade 6 sell 10 11 110]
        /\ final_capital (stats bt) = 111.
Proof.
  eexists. split; [vm_compute; reflexivity|].
  repeat (split; [reflexivity|]).
  eexists. split; [vm_compute; reflexivity|]. split; reflexivity.
Qed.

Example rsi_strategy_wave :
  exists res,
    rsi_strategy wave 2 70 30 = Ok res
    /\ getitem res "RSI2" = Ok [nan; 0; 0; 50; 100; 66.666666666666657]
    /\ getitem res "signal" = Ok [0; 1; 1; 0; -1; 0].
Proof. eexists. split; [vm_compute; reflexivity|]. split; reflexivity. Qed.

Example macd_strategy_wave :
  exists res,
    macd_strategy wave = Ok res /\ getitem res "signal" = Ok [0; -1; 0; 0; 0; 1].
Proof. eexists. split; [vm_compute; reflexivity|]. reflexivity. Qed.

End IndicatorClaims.


(** * Further properties of the code *)

(** ** The day loop and the result of [backtest] *)
Section BacktestShape.

Local Open Scope float_scope.

Lemma record_value_curve (st st' : SimState) (d : date) (row : Row) :
  record_value st d row = Ok st' ->
  exists v, portfolio_value st' = portfolio_value st ++ [(d, v)].
Proof.
  unfold record_value. intros H. bind_inv H. bind_inv H. injection H as <-.
  simpl. eauto.
Qed.

Lemma on_signal_shape (st st' : SimState) (d : date) (row : Row) (t : float) :
  on_signal st d row t = Ok st' ->
  portfolio_value st' = portfolio_value st
  /\ (trades st' = trades st
      \/ exists k price shares value, trades st' = trades st ++ [mkTrade d k price shares value]).
Proof.
  unfold on_signal. intros H.
  destruct (t =? 1).
  - destruct (gtb (cash st) 0); [|injection H as <-; auto].
    bind_inv H. bind_inv H. bind_inv H. injection H as <-. simpl. eauto 10.
  - destruct (t =? -1); [|injection H as <-; auto].
    destruct (0 <? position st)%Z; [|injection H as <-; auto].
    bind_inv H. bind_inv H. injection H as <-. simpl. eauto 10.
Qed.

(** What one day adds: one equity point dated as the row, and at most one
    trade, dated as the row. *)
Lemma step_shape (st st' : SimState) (r : date * Row) :
  step st r = Ok st' ->
  (exists v, portfolio_value st' = portfolio_value st ++ [(r.1, v)])
  /\ (trades st' = trades st
      \/ exists k price shares value,
          trades st' = trades st ++ [mkTrade r.1 k price shares value]).
Proof.
  unfold step. intros H. bind_inv H. bind_inv H.
  destruct (on_signal_shape _ _ _ _ _ Ha0) as [Hpv Htr].
  destruct (record_value_curve _ _ _ _ H) as [v Hv].
  apply record_value_state in H as (_ & _ & Ht).
  rewrite Hv, Ht, Hpv. split; [eauto|exact Htr].
Qed.

Lemma simulate_shape (rows : list (date * Row)) (st st' : SimState) :
  simulate rows st = Ok st' ->
  (portfolio_value st').*1 = (portfolio_value st).*1 ++ rows.*1
  /\ (length (trades st') <= length (trades st) + length rows)%nat
  /\ (forall t, t ∈ trades st' -> t ∈ trades st \/ trade_date t ∈ rows.*1).
Proof.
  revert st. induction rows as [|r rows IH]; intros st; simpl.
  - intros [= <-]. rewrite app_nil_r. split; [reflexivity|]. split; [lia|]. auto.
  - intros H. bind_inv H. destruct (step_shape _ _ _ Ha) as [[v Hv] Htr].
    destruct (IH _ H) as (Hd & Hl & Ht). split; [|split].
    + rewrite Hd, Hv, fmap_app, <- app_assoc. reflexivity.
    + destruct Htr as [Heq|(k & pr & sh & va & Heq)]; rewrite Heq in Hl;
        [lia|rewrite length_app in Hl; simpl in Hl; lia].
    + intros t Hin. destruct (Ht t Hin) as [Hin'|Hin']; [|right; constructor; exact Hin'].
      destruct Htr as [Heq|(k & pr & sh & va & Heq)]; rewrite Heq in Hin'; [auto|].
      apply elem_of_app in Hin' as [Hin'|Hin']; [auto|].
      apply list_elem_of_singleton in Hin'. subst t. right. simpl. constructor.
Qed.

Lemma iterrows_dates (df : DataFrame) : (iterrows df).*1 = df_index df.
Proof.
  unfold iterrows. generalize (row_at df). intros f.
  assert (H : forall (l : list date) (g : nat -> Row),
             (imap (fun i d => (d, g i)) l).*1 = l).
  { induction l as [|d l IH]; intros g; simpl; [reflexivity|]. f_equal. apply (IH (g ∘ S)). }
  apply H.
Qed.

Lemma to_dict_dom (pv : list (date * float)) (m : gmap date float) (d : date) :
  is_Some (foldl (fun m kv => <[kv.1 := kv.2]> m) m pv !! d)
  <-> is_Some (m !! d) \/ d ∈ pv.*1.
Proof.
  revert m. induction pv as [|[d' v] pv IH]; intros m; simpl.
  - split; [auto|]. intros [H|H]; [exact H|]. inversion H.
  - rewrite IH. destruct (decide (d' = d)) as [->|Hne].
    + rewrite lookup_insert_eq. split; intros _; [right; constructor|left; eauto].
    + rewrite lookup_insert_ne by exact Hne. split.
      * intros [H|H]; [auto|]. right. constructor. exact H.
      * intros [H|H]; [auto|]. right. inversion H; subst; [congruence|assumption].
Qed.

(** X1.  When [backtest] returns, the equity curve has exactly one point
    per row of the frame, dated as the rows and in their order, and the
    returned dictionary has exactly the frame's dates as keys; the trade
    log holds at most one trade per row, each dated as a row of the
    frame; [trade_count] is the length of the log, [initial_capital] the
    cash given, and [final_capital] the last equity value. *)
Theorem backtest_curve_and_log (df : DataFrame) (initial_cash : float) (res : BacktestResult) :
  backtest df initial_cash = Ok res ->
  exists st,
    simulate (iterrows df) (init_state initial_cash) = Ok st
    /\ (portfolio_value st).*1 = df_index df
    /\ result_portfolio res = to_dict (portfolio_value st)
    /\ (forall d, is_Some (result_portfolio res !! d) <-> d ∈ df_index df)
    /\ result_trades res = trades st
    /\ (length (result_trades res) <= length (df_index df))%nat
    /\ (forall t, t ∈ result_trades res -> trade_date t ∈ df_index df)
    /\ trade_count (stats res) = length (result_trades res)
    /\ initial_capital (stats res) = initial_cash
    /\ last ((portfolio_value st).*2) = Some (final_capital (stats res)).
Proof.
  intros H. destruct (backtest_Ok df initial_cash res H) as (st & ss & Hsim & Hperf & ->).
  exists st. split; [exact Hsim|].
  destruct (simulate_shape _ _ _ Hsim) as (Hd & Hl & Ht).
  simpl in Hd, Hl. rewrite iterrows_dates in Hd, Ht.
  assert (Hlen : length (iterrows df) = length (df_index df))
    by (unfold iterrows; apply length_imap).
  unfold performance in Hperf. bind_inv Hperf. bind_inv Hperf. injection Hperf as <-.
  assert (Hv : a = (portfolio_value st).*2).
  { unfold portfolio_series in Ha. destruct (portfolio_value st); [discriminate|].
    injection Ha as <-. reflexivity. }
  subst a. simpl.
  split; [exact Hd|]. split; [reflexivity|]. split.
  { intros d. unfold to_dict. rewrite to_dict_dom, Hd, lookup_empty.
    split; [intros [[x Hx]|Hin]; [discriminate|exact Hin]|auto]. }
  split; [reflexivity|]. split; [lia|]. split.
  { intros t Hin. destruct (Ht t Hin) as [Hnil|Hin']; [inversion Hnil|exact Hin']. }
  split; [reflexivity|]. split; [reflexivity|].
  unfold iloc_last in Ha0. destruct (last (portfolio_value st).*2); [|discriminate].
  injection Ha0 as ->. reflexivity.
Qed.

Lemma backtest_curve_and_log_witness :
  exists st,
    simulate (iterrows three_days) (init_state 100) = Ok st
    /\ (portfolio_value st).*1 = df_index three_days
    /\ result_portfolio (mkResult (mkStats 100 80 (-20) (-1680.0000000000011)
                                     598.66518188383066 (-2.8062430400804579)
                                     (-33.333333333333336) 2)
                           (trades three_days_end)
                           (to_dict (portfolio_value three_days_end)))
       = to_dict (portfolio_value st)
    /\ (forall d, is_Some (to_dict (portfolio_value three_days_end) !! d)
                  <-> d ∈ df_index three_days)
    /\ trades three_days_end = trades st
    /\ (length (trades three_days_end) <= length (df_index three_days))%nat
    /\ (forall t, t ∈ trades three_days_end -> trade_date t ∈ df_index three_days)
    /\ 2%nat = length (trades three_days_end)
    /\ 100 = 100
    /\ last ((portfolio_value st).*2) = Some 80.
Proof.
  apply (backtest_curve_and_log three_days 100
           (mkResult (mkStats 100 80 (-20) (-1680.0000000000011)
                        598.66518188383066 (-2.8062430400804579)
                        (-33.333333333333336) 2)
              (trades three_days_end)
              (to_dict (portfolio_value three_days_end)))).
  vm_compute. reflexivity.
Defined.

(** X2.  A frame with at least one row and a trigger to read on its
    first row, but no [close] column, makes [backtest] raise
    [KeyError('close')] on that row whatever the trigger is: a buy reads
    the price to size the order, and every other day reads it to record
    the equity. *)
Theorem backtest_needs_close
    (df : DataFrame) (initial_cash : float) (d : date) (ds : list date) (t : float) :
  df_index df = d :: ds ->
  df_columns df !! "close" = None ->
  row_signal (row_at df 0) = Ok t ->
  backtest df initial_cash = Raise (KeyError "close").
Proof.
  intros Hi Hc Ht. destruct (iterrows_cons df d ds Hi) as [rest Hrows].
  unfold backtest. rewrite Hrows. simpl. unfold step. simpl. rewrite Ht. simpl.
  assert (Hget : row_get (row_at df 0) "close" = Raise (KeyError "close")).
  { unfold row_get. rewrite (row_at_None df 0 "close" Hc). reflexivity. }
  unfold on_signal, record_value. simpl. rewrite Hget.
  destruct (t =? 1); [destruct (gtb initial_cash 0); reflexivity|].
  destruct (t =? -1); reflexivity.
Qed.

Lemma backtest_needs_close_witness :
  backtest no_close 100 = Raise (KeyError "close").
Proof.
  apply (backtest_needs_close no_close 100 1%Z [2%Z] 0); reflexivity.
Defined.

(** A product by the integer 0 and a sum with it, for the values the
    simulator meets. *)
Lemma positive_finite_Prim2SF (c : float) :
  positive_finite c = true -> exists m e, Prim2SF c = S754_finite false m e.
Proof.
  unfold positive_finite. intros [H0 Hinf]%andb_true_iff.
  destruct (gt_zero_Prim2SF c H0) as [Hc|Hc]; [|exact Hc].
  rewrite FloatAxioms.ltb_spec, Hc in Hinf. discriminate.
Qed.

Lemma mul_zero_positive_finite (c : float) :
  positive_finite c = true -> 0 * c = 0.
Proof.
  intros (m & e & Hc)%positive_finite_Prim2SF.
  apply Prim2SF_inj. rewrite FloatAxioms.mul_spec, Hc. reflexivity.
Qed.

Lemma add_zero_positive (x : float) : (0 <? x) = true -> x + 0 = x.
Proof.
  intros H. apply Prim2SF_inj. rewrite FloatAxioms.add_spec.
  change (Prim2SF 0) with (S754_zero false).
  destruct (gt_zero_Prim2SF x H) as [->|(m & e & ->)]; reflexivity.
Qed.

(** A hold day at a valid price, without a position: the cash is
    recorded as the day's equity. *)
Lemma step_quiet_flat (cash0 : float) (log : list Trade) (pv : list (date * float))
    (d : date) (row : Row) :
  quiet_row row -> close_ok row = true -> (0 <? cash0) = true ->
  step (mkSim cash0 0 log pv) (d, row) = Ok (mkSim cash0 0 log (pv ++ [(d, cash0)])).
Proof.
  intros (t & Ht & H1 & H2) Hc Hcash. unfold step. simpl. rewrite Ht. simpl.
  unfold on_signal. rewrite H1, H2. simpl.
  unfold close_ok in Hc. unfold record_value, row_get. simpl.
  destruct (row !! "close") as [c|]; [|discriminate].
  simpl. change (zero * c) with (0 * c).
  rewrite (mul_zero_positive_finite c Hc), (add_zero_positive cash0 Hcash). reflexivity.
Qed.

Lemma simulate_quiet (rows : list (date * Row)) (cash0 : float) (pv : list (date * float)) :
  Forall (fun r : date * Row => quiet_row r.2 /\ close_ok r.2 = true) rows ->
  (0 <? cash0) = true ->
  simulate rows (mkSim cash0 0 [] pv)
  = Ok (mkSim cash0 0 [] (pv ++ ((fun r : date * Row => (r.1, cash0)) <$> rows))).
Proof.
  intros Hrows Hcash. revert pv.
  induction Hrows as [|[d row] rows [Hq Hc] _ IH]; intros pv; simpl.
  - rewrite app_nil_r. reflexivity.
  - rewrite (step_quiet_flat cash0 [] pv d row Hq Hc Hcash). simpl.
    rewrite IH, <- app_assoc. reflexivity.
Qed.

(** With a non-empty equity curve the statistics are always computed. *)
Lemma performance_Ok (initial_cash : float) (st : SimState) :
  portfolio_value st <> [] ->
  exists ss, performance initial_cash st = Ok ss
             /\ trade_count ss = length (trades st)
             /\ last ((portfolio_value st).*2) = Some (final_capital ss).
Proof.
  intros Hne. unfold performance, portfolio_series.
  destruct (portfolio_value st) as [|p pv]; [congruence|].
  cbv [mbind result_bind]. unfold iloc_last.
  destruct (last (p :: pv).*2) as [v|] eqn:E.
  - eexists. split; [reflexivity|]. simpl. auto.
  - apply last_None in E. discriminate.
Qed.

Lemma last_cons_replicate (n : nat) (c : float) : last (c :: replicate n c) = Some c.
Proof. induction n as [|n IH]; [reflexivity|exact IH]. Qed.

Lemma const_curve_last (rows : list (date * Row)) (d : date) (c : float) :
  last (c :: ((fun r : date * Row => (r.1, c)) <$> rows).*2) = Some c.
Proof.
  assert (H : ((fun r : date * Row => (r.1, c)) <$> rows).*2 = replicate (length rows) c).
  { induction rows as [|r rows IH]; [reflexivity|]. simpl. f_equal. exact IH. }
  rewrite H. apply last_cons_replicate.
Qed.

(** X3.  Any trigger other than exactly 1 or -1 (0, a not-a-number, any
    other value) is a hold.  On a frame with at least one row, positive
    finite closes and only such triggers, and with a positive initial
    cash, [backtest] returns: it logs no trade, every equity point is the
    initial cash, and [final_capital] is the initial cash. *)
Theorem backtest_without_triggers (df : DataFrame) (initial_cash : float) :
  df_index df <> [] ->
  valid_closes df ->
  Forall (fun r : date * Row => quiet_row r.2) (iterrows df) ->
  (0 <? initial_cash) = true ->
  exists res,
    backtest df initial_cash = Ok res
    /\ result_trades res = []
    /\ trade_count (stats res) = 0%nat
    /\ final_capital (stats res) = initial_cash
    /\ (forall d v, result_portfolio res !! d = Some v -> v = initial_cash).
Proof.
  intros Hne Hvalid Hquiet Hcash.
  assert (Hrows : Forall (fun r : date * Row => quiet_row r.2 /\ close_ok r.2 = true)
                    (iterrows df)).
  { unfold valid_closes in Hvalid. rewrite Forall_forall in *. auto. }
  pose proof (simulate_quiet (iterrows df) initial_cash [] Hrows Hcash) as Hsim.
  simpl in Hsim. unfold backtest, init_state. rewrite Hsim.
  destruct (iterrows df) as [|r rows] eqn:E.
  { exfalso. apply Hne. rewrite <- (iterrows_dates df), E. reflexivity. }
  set (st := mkSim initial_cash 0 [] ((fun r0 : date * Row => (r0.1, initial_cash)) <$> r :: rows)).
  destruct (performance_Ok initial_cash st) as (ss & Hperf & Hcount & Hlast);
    [discriminate|].
  change (Ok st ≫= (fun st0 => performance initial_cash st0 ≫= fun stats0 =>
            Ok (mkResult stats0 (trades st0) (to_dict (portfolio_value st0)))))
    with (performance initial_cash st ≫= fun stats0 =>
            Ok (mkResult stats0 (trades st) (to_dict (portfolio_value st)))).
  rewrite Hperf. eexists. split; [reflexivity|]. simpl.
  split; [reflexivity|]. split; [exact Hcount|]. split.
  { pose proof (const_curve_last rows r.1 initial_cash) as Hc.
    change (last (portfolio_value st).*2 = Some initial_cash) in Hc.
    rewrite Hc in Hlast. injection Hlast as <-. reflexivity. }
  intros d v Hlook.
  assert (Hall : forall (pv : list (date * float)) (m : gmap date float),
             (forall d v, m !! d = Some v -> v = initial_cash) ->
             Forall (fun kv : date * float => kv.2 = initial_cash) pv ->
             forall d v, foldl (fun m kv => <[kv.1 := kv.2]> m) m pv !! d = Some v ->
                         v = initial_cash).
  { induction pv as [|[d' v'] pv IHpv]; intros m Hm Hpv d1 v1; simpl; [apply Hm|].
    apply Forall_cons in Hpv as [Hhd Htl]. apply IHpv; [|exact Htl].
    intros d2 v2. destruct (decide (d' = d2)) as [->|Hn].
    - rewrite lookup_insert_eq. intros [= <-]. exact Hhd.
    - rewrite lookup_insert_ne by exact Hn. apply Hm. }
  eapply (Hall _ ∅); [intros ? ?; rewrite lookup_empty; discriminate| |exact Hlook].
  constructor; [reflexivity|]. apply Forall_fmap. apply Forall_true. reflexivity.
Qed.

Lemma backtest_without_triggers_witness :
  exists res,
    backtest quiet_days 100 = Ok res
    /\ result_trades res = []
    /\ trade_count (stats res) = 0%nat
    /\ final_capital (stats res) = 100
    /\ (forall d v, result_portfolio res !! d = Some v -> v = 100).
Proof.
  apply (backtest_without_triggers quiet_days 100).
  - simpl. discriminate.
  - unfold valid_closes. vm_compute iterrows. repeat constructor.
  - vm_compute iterrows. repeat constructor; eexists; (split; [reflexivity|split; reflexivity]).
  - reflexivity.
Defined.

(** A day reads its row through three labels only, and not even
    [signal] when the row has a [position]. *)
Lemma step_same_reads (st : SimState) (d : date) (row row' : Row) :
  row' !! "close" = row !! "close" ->
  row' !! "position" = row !! "position" ->
  (is_Some (row !! "position") \/ row' !! "signal" = row !! "signal") ->
  step st (d, row') = step st (d, row).
Proof.
  intros Hc Hp Hs.
  assert (Hget : row_get row' "close" = row_get row "close")
    by (unfold row_get; rewrite Hc; reflexivity).
  assert (Hsig : row_signal row' = row_signal row).
  { unfold row_signal, row_contains, row_get. rewrite Hp.
    destruct (row !! "position") as [v|] eqn:E.
    - rewrite bool_decide_eq_true_2 by eauto. reflexivity.
    - rewrite bool_decide_eq_false_2 by (intros [x Hx]; discriminate).
      destruct Hs as [[x Hx]|Hs]; [discriminate|]. rewrite Hs. reflexivity. }
  unfold step. simpl. rewrite Hsig.
  destruct (row_signal row) as [t|e]; [|reflexivity]. simpl.
  assert (Hon : forall st0, on_signal st0 d row' t = on_signal st0 d row t)
    by (intros st0; unfold on_signal; rewrite Hget; reflexivity).
  assert (Hrec : forall st0, record_value st0 d row' = record_value st0 d row)
    by (intros st0; unfold record_value; rewrite Hget; reflexivity).
  rewrite Hon. destruct (on_signal st d row t) as [st1|e]; [|reflexivity].
  simpl. apply Hrec.
Qed.

Lemma simulate_ext (rows rows' : list (date * Row)) (st : SimState) :
  Forall2 (fun r r' => forall st0, step st0 r = step st0 r') rows rows' ->
  simulate rows st = simulate rows' st.
Proof.
  intros H. revert st. induction H as [|r r' rows rows' Hr _ IH]; intros st; simpl.
  - reflexivity.
  - rewrite Hr. destruct (step st r') as [st1|e]; [|reflexivity]. simpl. apply IH.
Qed.

Lemma Forall2_imap_same {A B} (R : B -> B -> Prop) (l : list A) (f g : nat -> A -> B) :
  (forall i x, l !! i = Some x -> R (f i x) (g i x)) ->
  Forall2 R (imap f l) (imap g l).
Proof.
  revert f g. induction l as [|x l IH]; intros f g H; simpl; [constructor|].
  constructor; [apply (H 0%nat x); reflexivity|].
  apply IH. intros i y Hy. apply (H (S i) y). exact Hy.
Qed.

Lemma row_at_setitem_ne (df : DataFrame) (c k : string) (col : Series) (i : nat) :
  c <> k -> row_at (setitem df c col) i !! k = row_at df i !! k.
Proof.
  intros Hne. unfold row_at, setitem. simpl.
  rewrite !lookup_omap, lookup_insert_ne by exact Hne. reflexivity.
Qed.

Lemma row_at_full_column (df : DataFrame) (c : string) (i : nat) (d : date) :
  full_column df c -> df_index df !! i = Some d -> is_Some (row_at df i !! c).
Proof.
  intros (col & Hcol & Hlen) Hi. unfold row_at. rewrite lookup_omap, Hcol. simpl.
  apply lookup_lt_is_Some. rewrite Hlen. apply lookup_lt_Some in Hi. exact Hi.
Qed.

(** X4.  [backtest] reads only the [close] column and one trigger
    column.  Replacing or adding any other column leaves its result
    unchanged; and when the frame has a [position] column (one value per
    row), so does replacing the [signal] column: [position] alone drives
    the trades, as on the frames the moving-average strategy returns. *)
Theorem backtest_reads_close_and_trigger (df : DataFrame) (initial_cash : float) :
  (forall c col, c <> "close" -> c <> "position" -> c <> "signal" ->
     backtest (setitem df c col) initial_cash = backtest df initial_cash)
  /\ (full_column df "position" ->
      forall col, backtest (setitem df "signal" col) initial_cash = backtest df initial_cash).
Proof.
  assert (Hbt : forall df', df_index df' = df_index df ->
                  Forall2 (fun r r' => forall st0, step st0 r = step st0 r')
                    (iterrows df') (iterrows df) ->
                  backtest df' initial_cash = backtest df initial_cash).
  { intros df' Hi HF. unfold backtest. rewrite (simulate_ext _ _ _ HF). reflexivity. }
  split.
  - intros c col Hc Hp Hs. apply Hbt; [reflexivity|].
    unfold iterrows. simpl. apply Forall2_imap_same. intros i d Hd st0.
    apply step_same_reads; [| |right]; apply row_at_setitem_ne; assumption.
  - intros Hfull col. apply Hbt; [reflexivity|].
    unfold iterrows. simpl. apply Forall2_imap_same. intros i d Hd st0.
    apply step_same_reads; [apply row_at_setitem_ne; discriminate
                           |apply row_at_setitem_ne; discriminate|left].
    exact (row_at_full_column df "position" i d Hfull Hd).
Qed.

Lemma backtest_reads_close_and_trigger_witness :
  full_column both_columns "position"
  /\ backtest (setitem both_columns "signal" [-1; -1; 1]) 100 = backtest both_columns 100
  /\ backtest (setitem both_columns "volume" [7; 7; 7]) 100 = backtest both_columns 100.
Proof.
  assert (Hfull : full_column both_columns "position")
    by (exists [nan; 1; 0]; split; reflexivity).
  split; [exact Hfull|]. split.
  - apply (proj2 (backtest_reads_close_and_trigger both_columns 100) Hfull).
  - apply (proj1 (backtest_reads_close_and_trigger both_columns 100)); discriminate.
Defined.

Lemma int_of_float_error (x : float) (e : exn) :
  int_of_float x = Raise e -> numeric_error e.
Proof.
  unfold int_of_float, numeric_error.
  destruct (Prim2SF x); intros [= <-]; simpl; auto.
Qed.

Lemma mul_int_float_error (n : Z) (x : float) (e : exn) :
  mul_int_float n x = Raise e -> numeric_error e.
Proof.
  unfold mul_int_float, float_of_int, numeric_error.
  destruct (binary_normalize prec emax n 0 false); simpl; intros [= <-]; simpl; auto.
Qed.

Lemma bind_Raise {A B} (m : result A) (f : A -> result B) (e : exn) :
  m ≫= f = Raise e -> m = Raise e \/ exists a, m = Ok a /\ f a = Raise e.
Proof. destruct m as [a|e']; simpl; [eauto|]. intros [= <-]. auto. Qed.

Lemma step_readable (st : SimState) (r : date * Row) (e : exn) :
  readable_row r.2 -> step st r = Raise e -> numeric_error e.
Proof.
  destruct r as [d row]. simpl. intros [[c Hc] Htrig].
  assert (Hget : row_get row "close" = Ok c) by (unfold row_get; rewrite Hc; reflexivity).
  assert (Hsig : exists t, row_signal row = Ok t).
  { unfold row_signal, row_contains, row_get.
    destruct (row !! "position") as [v|] eqn:E.
    - rewrite bool_decide_eq_true_2 by eauto. eauto.
    - rewrite bool_decide_eq_false_2 by (intros [x Hx]; discriminate).
      destruct Htrig as [[x Hx]|[x Hx]]; [discriminate|]. rewrite Hx. eauto. }
  destruct Hsig as [t Ht]. unfold step. simpl. rewrite Ht. simpl.
  intros H. apply bind_Raise in H as [H|(st1 & _ & H)].
  - unfold on_signal in H. rewrite Hget in H. simpl in H.
    destruct (t =? 1).
    + destruct (gtb (cash st) 0); [|discriminate].
      apply bind_Raise in H as [H|(sh & _ & H)]; [exact (int_of_float_error _ _ H)|].
      apply bind_Raise in H as [H|(co & _ & H)]; [exact (mul_int_float_error _ _ _ H)|].
      discriminate.
    + destruct (t =? -1); [|discriminate].
      destruct (0 <? position st)%Z; [|discriminate].
      apply bind_Raise in H as [H|(va & _ & H)]; [exact (mul_int_float_error _ _ _ H)|].
      discriminate.
  - unfold record_value in H. rewrite Hget in H. simpl in H.
    apply bind_Raise in H as [H|(he & _ & H)]; [exact (mul_int_float_error _ _ _ H)|].
    discriminate.
Qed.

Lemma simulate_readable (rows : list (date * Row)) (st : SimState) (e : exn) :
  Forall (fun r : date * Row => readable_row r.2) rows ->
  simulate rows st = Raise e -> numeric_error e.
Proof.
  intros Hrows. revert st. induction Hrows as [|r rows Hr _ IH]; intros st; simpl.
  - discriminate.
  - intros H. apply bind_Raise in H as [H|(st1 & _ & H)].
    + exact (step_readable st r e Hr H).
    + exact (IH st1 H).
Qed.

Lemma iterrows_readable (df : DataFrame) :
  full_column df "close" ->
  full_column df "position" \/ full_column df "signal" ->
  Forall (fun r : date * Row => readable_row r.2) (iterrows df).
Proof.
  intros Hc Ht. unfold iterrows. apply Forall_lookup. intros i r Hr.
  rewrite list_lookup_imap in Hr.
  destruct (df_index df !! i) as [d|] eqn:Hd; [|discriminate].
  injection Hr as <-. simpl. split.
  - exact (row_at_full_column df "close" i d Hc Hd).
  - destruct Ht as [Ht|Ht]; [left|right]; exact (row_at_full_column df _ i d Ht Hd).
Qed.

Lemma readable_feeds_backtest (df : DataFrame) :
  df_index df <> [] ->
  full_column df "close" ->
  full_column df "position" \/ full_column df "signal" ->
  feeds_backtest df.
Proof.
  intros Hne Hc Ht cash e. unfold backtest. intros H.
  apply bind_Raise in H as [H|(st & Hsim & H)].
  - exact (simulate_readable _ _ _ (iterrows_readable df Hc Ht) H).
  - exfalso. destruct (simulate_shape _ _ _ Hsim) as (Hd & _ & _).
    simpl in Hd. rewrite iterrows_dates in Hd.
    destruct (performance_Ok cash st) as (ss & Hperf & _).
    + intros Hnil. rewrite Hnil in Hd. simpl in Hd. congruence.
    + rewrite Hperf in H. discriminate.
Qed.

(** X5.  On a frame with at least one row, a [close] value on every row
    and a [position] or a [signal] value on every row, [backtest] finds
    every label it looks up: whatever it raises is a [ValueError] or an
    [OverflowError] of a number conversion, never a [KeyError] or an
    [IndexError]. *)
Theorem backtest_errors_are_numeric (df : DataFrame) (initial_cash : float) (e : exn) :
  df_index df <> [] ->
  full_column df "close" ->
  full_column df "position" \/ full_column df "signal" ->
  backtest df initial_cash = Raise e ->
  exn_class e = "ValueError" \/ exn_class e = "OverflowError".
Proof.
  intros Hne Hc Ht. unfold backtest. intros H.
  apply bind_Raise in H as [H|(st & Hsim & H)].
  - exact (simulate_readable _ _ _ (iterrows_readable df Hc Ht) H).
  - exfalso. destruct (simulate_shape _ _ _ Hsim) as (Hd & _ & _).
    simpl in Hd. rewrite iterrows_dates in Hd.
    destruct (performance_Ok initial_cash st) as (ss & Hperf & _).
    + intros Hnil. rewrite Hnil in Hd. simpl in Hd. congruence.
    + rewrite Hperf in H. discriminate.
Qed.

Lemma backtest_errors_are_numeric_witness :
  exn_class (OverflowError "cannot convert float infinity to integer") = "ValueError"
  \/ exn_class (OverflowError "cannot convert float infinity to integer") = "OverflowError".
Proof.
  apply (backtest_errors_are_numeric tiny_close 100
           (OverflowError "cannot convert float infinity to integer")).
  - simpl. discriminate.
  - exists [5e-324]. split; reflexivity.
  - right. exists [1]. split; reflexivity.
  - vm_compute. reflexivity.
Defined.

End BacktestShape.

(** ** The three strategies *)
Section StrategyProps.

Local Open Scope float_scope.

Lemma SFcompare_swap (x y : spec_float) :
  SFcompare y x = CompOpp <$> SFcompare x y.
Proof.
  destruct x as [[]|[]| |[] mx ex], y as [[]|[]| |[] my ey]; simpl; try reflexivity.
  - rewrite (Z.compare_antisym ey ex).
    destruct (ey ?= ex)%Z; simpl; try reflexivity.
    rewrite (Pos.compare_cont_antisym mx my Eq). simpl.
    destruct (Pos.compare_cont Eq mx my); reflexivity.
  - rewrite (Z.compare_antisym ey ex).
    destruct (ey ?= ex)%Z; simpl; try reflexivity.
    rewrite (Pos.compare_cont_antisym mx my Eq). simpl.
    destruct (Pos.compare_cont Eq mx my); reflexivity.
Qed.

(** [a < b] and [a > b] never hold together. *)
Lemma ltb_asym (a b : float) : (a <? b) = true -> (b <? a) = false.
Proof.
  rewrite !FloatAxioms.ltb_spec. unfold SFltb.
  rewrite (SFcompare_swap (Prim2SF a) (Prim2SF b)).
  destruct (SFcompare (Prim2SF a) (Prim2SF b)) as [[]|]; simpl; congruence.
Qed.

Lemma shift1_lookup_S (xs : Series) (j : nat) (x : float) :
  xs !! j = Some x -> (S j < length xs)%nat -> shift1 xs !! S j = Some x.
Proof.
  intros Hx Hlen. unfold shift1. rewrite lookup_take_lt by exact Hlen. exact Hx.
Qed.

(** The frame [macd_strategy] returns, read through the closes. *)
Lemma macd_strategy_columns (hist : DataFrame) (close : Series) :
  getitem hist "close" = Ok close ->
  exists res signal,
    macd_strategy hist = Ok res
    /\ getitem res "DIF" = Ok (macd_dif close)
    /\ getitem res "DEA" = Ok (macd_dea close)
    /\ getitem res "signal" = Ok signal
    /\ (forall j dif0 dea0 dif1 dea1,
          macd_dif close !! j = Some dif0 -> macd_dea close !! j = Some dea0 ->
          macd_dif close !! S j = Some dif1 -> macd_dea close !! S j = Some dea1 ->
          (S j < length (df_index hist))%nat ->
          signal !! S j = Some (cross_signal dif0 dea0 dif1 dea1)).
Proof.
  intros Hclose. unfold macd_strategy, calculate_macd.
  rewrite Hclose. simpl.
  repeat (rewrite ?getitem_setitem_eq; rewrite ?getitem_setitem_ne by discriminate; simpl).
  unfold setitem_scalar, loc_set.
  repeat (rewrite ?getitem_setitem_eq; rewrite ?getitem_setitem_ne by discriminate; simpl).
  fold (macd_dif close). fold (macd_dea close).
  eexists _, _. split; [reflexivity|].
  repeat (rewrite ?getitem_setitem_eq; rewrite ?getitem_setitem_ne by discriminate; simpl).
  split; [reflexivity|]. split; [reflexivity|]. split; [reflexivity|].
  intros j dif0 dea0 dif1 dea1 Hd0 He0 Hd1 He1 Hrow.
  rewrite !list_lookup_imap, lookup_replicate_2 by exact Hrow. simpl.
  rewrite !lookup_zip_with.
  rewrite (shift1_lookup_S _ _ _ Hd0) by (apply lookup_lt_Some in Hd1; exact Hd1).
  rewrite (shift1_lookup_S _ _ _ He0) by (apply lookup_lt_Some in He1; exact He1).
  rewrite Hd1, He1. simpl. unfold cross_signal.
  destruct (gtb dif1 dea1) eqn:Hg; simpl.
  - unfold gtb in Hg. rewrite (ltb_asym _ _ Hg). simpl.
    destruct (dif0 <=? dea0); reflexivity.
  - destruct ((dif1 <? dea1) && (dea0 <=? dif0)); reflexivity.
Qed.

(** X6.  From the second row on, the [signal] of the frame
    [macd_strategy] returns is the crossing rule applied to the frame's
    own [DIF] and [DEA] columns on the row and on the row before it: 1
    exactly on a golden cross (DIF above DEA today, not above it the day
    before), -1 exactly on a death cross, 0 otherwise.  The two
    assignments never compete: a golden cross is never overwritten by
    the second one. *)
Theorem macd_signal_is_crossing
    (hist res : DataFrame) (dif dea : Series) (j : nat) (dif0 dea0 dif1 dea1 : float) :
  macd_strategy hist = Ok res ->
  getitem res "DIF" = Ok dif -> getitem res "DEA" = Ok dea ->
  dif !! j = Some dif0 -> dea !! j = Some dea0 ->
  dif !! S j = Some dif1 -> dea !! S j = Some dea1 ->
  (S j < length (df_index hist))%nat ->
  exists signal,
    getitem res "signal" = Ok signal
    /\ signal !! S j = Some (cross_signal dif0 dea0 dif1 dea1).
Proof.
  intros Hres Hdif Hdea Hd0 He0 Hd1 He1 Hrow.
  assert (Hclose : exists close, getitem hist "close" = Ok close).
  { unfold macd_strategy, calculate_macd in Hres.
    destruct (getitem hist "close") as [close|e]; [eauto|discriminate]. }
  destruct Hclose as [close Hclose].
  destruct (macd_strategy_columns hist close Hclose)
    as (res' & signal & Hres' & Hdif' & Hdea' & Hsig & Hrule).
  rewrite Hres' in Hres. injection Hres as <-.
  rewrite Hdif' in Hdif. injection Hdif as <-.
  rewrite Hdea' in Hdea. injection Hdea as <-.
  exists signal. split; [exact Hsig|].
  exact (Hrule j dif0 dea0 dif1 dea1 Hd0 He0 Hd1 He1 Hrow).
Qed.

Lemma macd_signal_is_crossing_witness :
  exists signal,
    getitem wave_macd "signal" = Ok signal
    /\ signal !! 5%nat
       = Some (cross_signal (nth 4 (column wave_macd "DIF") nan)
                 (nth 4 (column wave_macd "DEA") nan)
                 (nth 5 (column wave_macd "DIF") nan)
                 (nth 5 (column wave_macd "DEA") nan)).
Proof.
  apply (macd_signal_is_crossing wave wave_macd
           (column wave_macd "DIF") (column wave_macd "DEA") 4);
    [vm_compute; reflexivity..|simpl; lia].
Defined.

(** Comparisons with a not-a-number are false. *)
Lemma is_nan_ltb (x y : float) :
  is_nan x = true -> (x <? y) = false /\ (y <? x) = false.
Proof.
  intros H. rewrite !FloatAxioms.ltb_spec, (is_nan_Prim2SF x H).
  split; [reflexivity|]. unfold SFltb. destruct (Prim2SF y); reflexivity.
Qed.

Lemma rsi_name_signal (s : string) : "RSI" +:+ s <> "signal" /\ "signal" <> "RSI" +:+ s.
Proof. split; intros H; simpl in H; discriminate. Qed.

Lemma rsi_name_close (s : string) : "RSI" +:+ s <> "close".
Proof. intros H; simpl in H; discriminate. Qed.

(** The frame [rsi_strategy] returns, read through the mean gains and
    losses. *)
Lemma rsi_strategy_columns
    (hist : DataFrame) (period : Z) (overbought oversold : float)
    (close gain loss : Series) :
  getitem hist "close" = Ok close ->
  rsi_gain period close = Ok gain ->
  rsi_loss period close = Ok loss ->
  exists res signal,
    rsi_strategy hist period overbought oversold = Ok res
    /\ getitem res ("RSI" +:+ pretty period) = Ok (zip_with rsi_value gain loss)
    /\ getitem res "signal" = Ok signal
    /\ (forall i r, zip_with rsi_value gain loss !! i = Some r ->
          (i < length (df_index hist))%nat ->
          signal !! i = Some (level_signal r overbought oversold)).
Proof.
  intros Hclose Hgain Hloss.
  destruct (rsi_name_signal (pretty period)) as [Hn1 Hn2].
  unfold rsi_strategy, calculate_rsi. rewrite Hclose. simpl.
  rewrite Hgain. simpl. rewrite Hloss. simpl.
  unfold setitem_scalar, loc_set.
  repeat (rewrite ?getitem_setitem_eq; rewrite ?getitem_setitem_ne by assumption; simpl).
  eexists _, _. split; [reflexivity|].
  repeat (rewrite ?getitem_setitem_eq; rewrite ?getitem_setitem_ne by assumption; simpl).
  split; [reflexivity|]. split; [reflexivity|].
  intros i r Hr Hrow.
  rewrite !list_lookup_imap, lookup_replicate_2 by exact Hrow. simpl.
  rewrite !list_lookup_fmap, Hr. simpl. unfold level_signal.
  destruct (gtb r overbought); [reflexivity|]. destruct (r <? oversold); reflexivity.
Qed.

(** X7.  On every row, the [signal] of the frame [rsi_strategy] returns
    is the level rule applied to the value the frame's own
    [RSI<period>] column holds on that row: -1 when it is above the
    overbought line, else 1 when it is below the oversold line, else 0.
    The sell test wins when both lines are crossed at once (an oversold
    line above the overbought one), and a not-a-number RSI, as on the
    warm-up rows, gives 0. *)
Theorem rsi_signal_is_level
    (hist res : DataFrame) (period : Z) (overbought oversold : float)
    (rsi : Series) (i : nat) (r : float) :
  rsi_strategy hist period overbought oversold = Ok res ->
  getitem res ("RSI" +:+ pretty period) = Ok rsi ->
  rsi !! i = Some r ->
  (i < length (df_index hist))%nat ->
  exists signal,
    getitem res "signal" = Ok signal
    /\ signal !! i = Some (level_signal r overbought oversold)
    /\ (is_nan r = true -> signal !! i = Some 0).
Proof.
  intros Hres Hrsi Hr Hrow.
  assert (Hparts : exists close gain loss,
             getitem hist "close" = Ok close
             /\ rsi_gain period close = Ok gain /\ rsi_loss period close = Ok loss).
  { unfold rsi_strategy, calculate_rsi in Hres.
    destruct (getitem hist "close") as [close|e]; [|discriminate]. simpl in Hres.
    destruct (rsi_gain period close) as [gain|e] eqn:Eg; [|discriminate]. simpl in Hres.
    destruct (rsi_loss period close) as [loss|e] eqn:El; [|discriminate].
    exists close, gain, loss. auto. }
  destruct Hparts as (close & gain & loss & Hclose & Hgain & Hloss).
  destruct (rsi_strategy_columns hist period overbought oversold close gain loss
              Hclose Hgain Hloss) as (res' & signal & Hres' & Hrsi' & Hsig & Hrule).
  rewrite Hres' in Hres. injection Hres as <-.
  rewrite Hrsi' in Hrsi. injection Hrsi as <-.
  exists signal. split; [exact Hsig|].
  split; [exact (Hrule i r Hr Hrow)|].
  intros Hnan. rewrite (Hrule i r Hr Hrow). unfold level_signal, gtb.
  destruct (is_nan_ltb r overbought Hnan) as [_ ->].
  destruct (is_nan_ltb r oversold Hnan) as [-> _]. reflexivity.
Qed.

Lemma rsi_signal_is_level_witness :
  exists signal,
    getitem wave_rsi "signal" = Ok signal
    /\ signal !! 4%nat = Some (level_signal 100 70 30)
    /\ (is_nan 100 = true -> signal !! 4%nat = Some 0).
Proof.
  apply (rsi_signal_is_level wave wave_rsi 2 70 30 (column wave_rsi "RSI2"));
    [vm_compute; reflexivity..|simpl; lia].
Defined.

Lemma ma_name_inj (a b : Z) : "MA" +:+ pretty a = "MA" +:+ pretty b -> a = b.
Proof. simpl. intros [= H]. exact (inj pretty a b H). Qed.

Lemma ma_name_other (s : string) :
  "MA" +:+ s <> "signal" /\ "signal" <> "MA" +:+ s
  /\ "MA" +:+ s <> "position" /\ "MA" +:+ s <> "close".
Proof. repeat split; intros H; simpl in H; discriminate. Qed.

(** The frame [calculate_ma] returns for two periods, also when the two
    periods are the same and the second column replaces the first. *)
Lemma ma_columns (hist : DataFrame) (short_period long_period : Z) (close ma_s ma_l : Series) :
  getitem hist "close" = Ok close ->
  rolling_mean short_period close = Ok ma_s ->
  rolling_mean long_period close = Ok ma_l ->
  exists ma_data,
    calculate_ma hist [short_period; long_period] = Ok ma_data
    /\ df_index ma_data = df_index hist
    /\ getitem ma_data "close" = Ok close
    /\ getitem ma_data ("MA" +:+ pretty short_period) = Ok ma_s
    /\ getitem ma_data ("MA" +:+ pretty long_period) = Ok ma_l.
Proof.
  intros Hclose Hs Hl. unfold calculate_ma. simpl.
  rewrite Hclose. simpl. rewrite Hs. simpl. rewrite Hl. simpl.
  destruct (ma_name_other (pretty short_period)) as (_ & _ & _ & Hsc).
  destruct (ma_name_other (pretty long_period)) as (_ & _ & _ & Hlc).
  eexists. split; [reflexivity|]. split; [reflexivity|].
  split; [rewrite !getitem_setitem_ne by assumption; exact Hclose|].
  split; [|apply getitem_setitem_eq].
  destruct (decide (short_period = long_period)) as [->|Hne].
  - rewrite getitem_setitem_eq. congruence.
  - rewrite getitem_setitem_ne by (intros H; apply Hne; symmetry; exact (ma_name_inj _ _ H)).
    apply getitem_setitem_eq.
Qed.

(** The [signal] column after the masked assignment of the
    moving-average strategy. *)
Lemma trend_column (n : nat) (ma_s ma_l : Series) (i : nat) (s l : float) :
  ma_s !! i = Some s -> ma_l !! i = Some l -> (i < n)%nat ->
  imap (fun (k : nat) (x : float) =>
          match zip_with gtb ma_s ma_l !! k with Some true => 1 | _ => x end)
       (replicate n 0) !! i = Some (trend_signal s l).
Proof.
  intros Hs Hl Hi. rewrite list_lookup_imap, lookup_replicate_2 by exact Hi. simpl.
  rewrite lookup_zip_with, Hs. simpl. rewrite Hl. simpl.
  unfold trend_signal. destruct (gtb s l); reflexivity.
Qed.

Lemma diff_lookup_S (xs : Series) (j : nat) (x y : float) :
  xs !! j = Some x -> xs !! S j = Some y -> diff xs !! S j = Some (y - x).
Proof.
  intros Hx Hy. unfold diff. rewrite lookup_zip_with, Hy. simpl.
  rewrite (shift1_lookup_S _ _ _ Hx) by (apply lookup_lt_Some in Hy; exact Hy).
  reflexivity.
Qed.

Lemma sub_nan_r (x : float) : x - nan = nan.
Proof.
  apply Prim2SF_inj. rewrite FloatAxioms.sub_spec.
  change (Prim2SF nan) with S754_nan. destruct (Prim2SF x) as [| | |[]]; reflexivity.
Qed.

Lemma diff_lookup_0 (xs : Series) (p : float) : diff xs !! 0%nat = Some p -> is_nan p = true.
Proof.
  unfold diff, shift1. destruct xs as [|x xs]; simpl; [discriminate|].
  intros [= <-]. rewrite sub_nan_r. reflexivity.
Qed.

(** The frame [ma_cross_strategy] returns, read through the two rolling
    means. *)
Lemma ma_cross_strategy_columns
    (hist : DataFrame) (short_period long_period : Z) (close ma_s ma_l : Series) :
  getitem hist "close" = Ok close ->
  rolling_mean short_period close = Ok ma_s ->
  rolling_mean long_period close = Ok ma_l ->
  exists res signal,
    ma_cross_strategy hist short_period long_period = Ok res
    /\ getitem res ("MA" +:+ pretty short_period) = Ok ma_s
    /\ getitem res ("MA" +:+ pretty long_period) = Ok ma_l
    /\ getitem res "signal" = Ok signal
    /\ getitem res "position" = Ok (diff signal)
    /\ (forall i s l, (i < length (df_index hist))%nat ->
          ma_s !! i = Some s -> ma_l !! i = Some l ->
          signal !! i = Some (trend_signal s l)).
Proof.
  intros Hclose Hs Hl.
  destruct (ma_columns hist _ _ _ _ _ Hclose Hs Hl) as (ma_data & Hma & Hidx & _ & Hgs & Hgl).
  destruct (ma_name_other (pretty short_period)) as (Hs0 & Hs1 & Hs2 & _).
  destruct (ma_name_other (pretty long_period)) as (Hl0 & Hl1 & Hl2 & _).
  unfold ma_cross_strategy. rewrite Hma. simpl.
  unfold setitem_scalar, loc_set.
  rewrite (getitem_setitem_ne _ _ _ _ Hs1), Hgs. simpl.
  rewrite (getitem_setitem_ne _ _ _ _ Hl1), Hgl. simpl.
  rewrite getitem_setitem_eq. simpl. rewrite getitem_setitem_eq. simpl.
  eexists _, _. split; [reflexivity|].
  assert (Hpos : forall s : string, "MA" +:+ s <> "position" -> "position" <> "MA" +:+ s)
    by (intros s H Heq; apply H; symmetry; exact Heq).
  split; [rewrite (getitem_setitem_ne _ _ _ _ (Hpos _ Hs2)),
            !(getitem_setitem_ne _ _ _ _ Hs1); exact Hgs|].
  split; [rewrite (getitem_setitem_ne _ _ _ _ (Hpos _ Hl2)),
            !(getitem_setitem_ne _ _ _ _ Hl1); exact Hgl|].
  rewrite getitem_setitem_ne by discriminate. rewrite !getitem_setitem_eq.
  split; [reflexivity|]. split; [reflexivity|].
  intros i s l Hi Hsi Hli. rewrite Hidx. apply trend_column; assumption.
Qed.

(** X8.  In the frame the moving-average strategy returns, [signal] is 1
    on the rows where the frame's short average column is above its long
    average column and 0 on the other rows (those where an average is
    still missing included), and the [position] column, the one
    [backtest] trades on, is the day-to-day change of that flag: 1 on
    the day the short average gets above the long one, -1 on the day it
    stops being above, 0 otherwise, and not-a-number on the first
    row. *)
Theorem ma_cross_position_is_trend_change
    (hist res : DataFrame) (short_period long_period : Z) (ma_s ma_l : Series) :
  ma_cross_strategy hist short_period long_period = Ok res ->
  getitem res ("MA" +:+ pretty short_period) = Ok ma_s ->
  getitem res ("MA" +:+ pretty long_period) = Ok ma_l ->
  exists signal pos,
    getitem res "signal" = Ok signal
    /\ getitem res "position" = Ok pos
    /\ (forall i s l, (i < length (df_index hist))%nat ->
          ma_s !! i = Some s -> ma_l !! i = Some l ->
          signal !! i = Some (trend_signal s l)
          /\ (is_nan s = true \/ is_nan l = true -> signal !! i = Some 0))
    /\ (forall p, pos !! 0%nat = Some p -> is_nan p = true)
    /\ (forall j s0 l0 s1 l1, (S j < length (df_index hist))%nat ->
          ma_s !! j = Some s0 -> ma_l !! j = Some l0 ->
          ma_s !! S j = Some s1 -> ma_l !! S j = Some l1 ->
          pos !! S j = Some (trend_change s0 l0 s1 l1)).
Proof.
  intros Hres Hgs Hgl.
  assert (Hparts : exists close a b,
             getitem hist "close" = Ok close
             /\ rolling_mean short_period close = Ok a
             /\ rolling_mean long_period close = Ok b).
  { unfold ma_cross_strategy, calculate_ma in Hres. cbn [calculate_ma_loop] in Hres.
    destruct (getitem hist "close") as [close|e]; [|discriminate].
    cbn [mbind result_bind] in Hres.
    destruct (rolling_mean short_period close) as [a|e] eqn:Ea; [|discriminate].
    cbn [mbind result_bind] in Hres.
    destruct (rolling_mean long_period close) as [b|e] eqn:Eb; [|discriminate].
    exists close, a, b. auto. }
  destruct Hparts as (close & a & b & Hclose & Ha & Hb).
  destruct (ma_cross_strategy_columns hist short_period long_period close a b Hclose Ha Hb)
    as (res' & signal & Hres' & Hgs' & Hgl' & Hsig & Hpos & Hrule).
  rewrite Hres' in Hres. injection Hres as <-.
  rewrite Hgs' in Hgs. injection Hgs as <-.
  rewrite Hgl' in Hgl. injection Hgl as <-.
  exists signal, (diff signal). split; [exact Hsig|]. split; [exact Hpos|].
  split; [|split].
  - intros i s l Hi Hsi Hli. split; [exact (Hrule i s l Hi Hsi Hli)|].
    intros Hnan. rewrite (Hrule i s l Hi Hsi Hli). unfold trend_signal, gtb.
    destruct Hnan as [Hnan|Hnan].
    + destruct (is_nan_ltb s l Hnan) as [_ ->]. reflexivity.
    + destruct (is_nan_ltb l s Hnan) as [-> _]. reflexivity.
  - apply diff_lookup_0.
  - intros j s0 l0 s1 l1 Hj H0 H1 H2 H3.
    assert (Hj0 : (j < length (df_index hist))%nat) by lia.
    rewrite (diff_lookup_S _ j _ _ (Hrule _ _ _ Hj0 H0 H1) (Hrule _ _ _ Hj H2 H3)).
    unfold trend_signal, trend_change.
    destruct (gtb s1 l1), (gtb s0 l0); reflexivity.
Qed.

Lemma ma_cross_position_is_trend_change_witness :
  exists signal pos,
    getitem wave_ma "signal" = Ok signal
    /\ getitem wave_ma "position" = Ok pos
    /\ (forall i s l, (i < length (df_index wave))%nat ->
          column wave_ma "MA2" !! i = Some s -> column wave_ma "MA3" !! i = Some l ->
          signal !! i = Some (trend_signal s l)
          /\ (is_nan s = true \/ is_nan l = true -> signal !! i = Some 0))
    /\ (forall p, pos !! 0%nat = Some p -> is_nan p = true)
    /\ (forall j s0 l0 s1 l1, (S j < length (df_index wave))%nat ->
          column wave_ma "MA2" !! j = Some s0 -> column wave_ma "MA3" !! j = Some l0 ->
          column wave_ma "MA2" !! S j = Some s1 -> column wave_ma "MA3" !! S j = Some l1 ->
          pos !! S j = Some (trend_change s0 l0 s1 l1)).
Proof.
  apply (ma_cross_position_is_trend_change wave wave_ma 2 3); vm_compute; reflexivity.
Defined.

(** *** From a strategy to [backtest] *)

Lemma getitem_Ok (df : DataFrame) (c : string) (col : Series) :
  getitem df c = Ok col <-> df_columns df !! c = Some col.
Proof.
  unfold getitem. destruct (df_columns df !! c); split; congruence.
Qed.

Lemma full_column_getitem (df : DataFrame) (c : string) (col : Series) :
  getitem df c = Ok col -> length col = length (df_index df) -> full_column df c.
Proof. intros H Hlen. exists col. split; [apply getitem_Ok; exact H|exact Hlen]. Qed.

Lemma signal_frame_feeds (hist res : DataFrame) :
  df_index hist <> [] -> full_column hist "close" -> signal_frame_of hist res ->
  feeds_backtest res.
Proof.
  intros Hne (col & Hcol & Hlen) (Hidx & Hclose & Hsig).
  apply readable_feeds_backtest.
  - rewrite Hidx. exact Hne.
  - apply (full_column_getitem res "close" col).
    + rewrite Hclose. apply getitem_Ok. exact Hcol.
    + rewrite Hidx. exact Hlen.
  - right. exact Hsig.
Qed.

Lemma rolling_mean_Ok (window : Z) (xs : Series) :
  (0 <= window)%Z -> exists ys, rolling_mean window xs = Ok ys /\ length ys = length xs.
Proof.
  intros H. unfold rolling_mean. apply Z.ltb_ge in H. rewrite H.
  eexists. split; [reflexivity|]. apply length_imap.
Qed.

Lemma length_loc_mask {A} (f : nat -> A -> A) (g : nat -> A -> A) (n : nat) (v : A) :
  length (imap f (imap g (replicate n v))) = n.
Proof. rewrite !length_imap. apply length_replicate. Qed.

Lemma macd_strategy_frame (hist : DataFrame) (close : Series) :
  getitem hist "close" = Ok close ->
  exists res, macd_strategy hist = Ok res /\ signal_frame_of hist res.
Proof.
  intros Hclose. unfold macd_strategy, calculate_macd. rewrite Hclose. simpl.
  repeat (rewrite ?getitem_setitem_eq; rewrite ?getitem_setitem_ne by discriminate; simpl).
  unfold setitem_scalar, loc_set.
  repeat (rewrite ?getitem_setitem_eq; rewrite ?getitem_setitem_ne by discriminate; simpl).
  eexists. split; [reflexivity|]. split; [reflexivity|]. split.
  - rewrite !getitem_setitem_ne by discriminate. reflexivity.
  - eapply full_column_getitem; [apply getitem_setitem_eq|]. apply length_loc_mask.
Qed.

Lemma rsi_strategy_frame (hist : DataFrame) (period : Z) (overbought oversold : float)
    (close : Series) :
  getitem hist "close" = Ok close -> (0 <= period)%Z ->
  exists res, rsi_strategy hist period overbought oversold = Ok res
              /\ signal_frame_of hist res.
Proof.
  intros Hclose Hp.
  destruct (rsi_name_signal (pretty period)) as [Hn1 Hn2].
  pose proof (rsi_name_close (pretty period)) as Hn3.
  destruct (rolling_mean_Ok period
              (where_ (fun d => gtb d 0) 0 (diff close)) Hp) as (gain & Hgain & _).
  destruct (rolling_mean_Ok period
              (PrimFloat.opp <$> where_ (fun d => d <? 0) 0 (diff close)) Hp)
    as (loss & Hloss & _).
  unfold rsi_strategy, calculate_rsi, rsi_gain, rsi_loss. rewrite Hclose. simpl.
  rewrite Hgain. simpl. rewrite Hloss. simpl.
  unfold setitem_scalar, loc_set.
  repeat (rewrite ?getitem_setitem_eq; rewrite ?getitem_setitem_ne by assumption; simpl).
  eexists. split; [reflexivity|]. split; [reflexivity|]. split.
  - rewrite !getitem_setitem_ne by (assumption || discriminate). reflexivity.
  - eapply full_column_getitem; [apply getitem_setitem_eq|]. apply length_loc_mask.
Qed.

Lemma ma_cross_strategy_frame (hist : DataFrame) (short_period long_period : Z)
    (close : Series) :
  getitem hist "close" = Ok close -> (0 <= short_period)%Z -> (0 <= long_period)%Z ->
  exists res, ma_cross_strategy hist short_period long_period = Ok res
              /\ signal_frame_of hist res /\ full_column res "position".
Proof.
  intros Hclose Hp Hq.
  destruct (rolling_mean_Ok short_period close Hp) as (ma_s & Hs & _).
  destruct (rolling_mean_Ok long_period close Hq) as (ma_l & Hl & _).
  destruct (ma_columns hist _ _ _ _ _ Hclose Hs Hl) as (ma_data & Hma & Hidx & Hgc & Hgs & Hgl).
  destruct (ma_name_other (pretty short_period)) as (_ & Hs1 & _ & _).
  destruct (ma_name_other (pretty long_period)) as (_ & Hl1 & _ & _).
  unfold ma_cross_strategy. rewrite Hma. simpl.
  unfold setitem_scalar, loc_set.
  rewrite (getitem_setitem_ne _ _ _ _ Hs1), Hgs. simpl.
  rewrite (getitem_setitem_ne _ _ _ _ Hl1), Hgl. simpl.
  rewrite getitem_setitem_eq. simpl. rewrite getitem_setitem_eq. simpl.
  eexists. split; [reflexivity|]. split; [split; [exact Hidx|split]|].
  - rewrite !getitem_setitem_ne by discriminate. rewrite Hgc, Hclose. reflexivity.
  - eapply full_column_getitem.
    + rewrite getitem_setitem_ne by discriminate. apply getitem_setitem_eq.
    + simpl. rewrite length_imap, length_replicate. reflexivity.
  - eapply full_column_getitem; [apply getitem_setitem_eq|].
    simpl. rewrite length_diff, length_imap, length_replicate. reflexivity.
Qed.

(** X9.  Each strategy can be handed to [backtest].  On a history with
    at least one row and a [close] value on every row, and with periods
    that are not negative, each of the three strategies returns a frame
    with the rows and the closes of the history on which [backtest]
    finds every label it reads: it returns, or it raises the
    [ValueError] or [OverflowError] of a number conversion (a price that
    is missing, zero or not finite), never a [KeyError]. *)
Theorem strategies_feed_backtest
    (hist : DataFrame) (short_period long_period period : Z) (overbought oversold : float) :
  df_index hist <> [] ->
  full_column hist "close" ->
  (0 <= short_period)%Z -> (0 <= long_period)%Z -> (0 <= period)%Z ->
  (exists res, ma_cross_strategy hist short_period long_period = Ok res
               /\ df_index res = df_index hist
               /\ getitem res "close" = getitem hist "close"
               /\ feeds_backtest res)
  /\ (exists res, macd_strategy hist = Ok res
               /\ df_index res = df_index hist
               /\ getitem res "close" = getitem hist "close"
               /\ feeds_backtest res)
  /\ (exists res, rsi_strategy hist period overbought oversold = Ok res
               /\ df_index res = df_index hist
               /\ getitem res "close" = getitem hist "close"
               /\ feeds_backtest res).
Proof.
  intros Hne Hfull Hs Hl Hp.
  assert (Hclose : exists close, getitem hist "close" = Ok close).
  { destruct Hfull as (col & Hcol & _). exists col. apply getitem_Ok. exact Hcol. }
  destruct Hclose as [close Hclose].
  split; [|split].
  - destruct (ma_cross_strategy_frame hist short_period long_period close Hclose Hs Hl)
      as (res & Hres & Hframe & _).
    exists res. split; [exact Hres|]. split; [apply Hframe|]. split; [apply Hframe|].
    exact (signal_frame_feeds hist res Hne Hfull Hframe).
  - destruct (macd_strategy_frame hist close Hclose) as (res & Hres & Hframe).
    exists res. split; [exact Hres|]. split; [apply Hframe|]. split; [apply Hframe|].
    exact (signal_frame_feeds hist res Hne Hfull Hframe).
  - destruct (rsi_strategy_frame hist period overbought oversold close Hclose Hp)
      as (res & Hres & Hframe).
    exists res. split; [exact Hres|]. split; [apply Hframe|]. split; [apply Hframe|].
    exact (signal_frame_feeds hist res Hne Hfull Hframe).
Qed.

Lemma strategies_feed_backtest_witness :
  (exists res, ma_cross_strategy wave 2 3 = Ok res
               /\ df_index res = df_index wave
               /\ getitem res "close" = getitem wave "close"
               /\ feeds_backtest res)
  /\ (exists res, macd_strategy wave = Ok res
               /\ df_index res = df_index wave
               /\ getitem res "close" = getitem wave "close"
               /\ feeds_backtest res)
  /\ (exists res, rsi_strategy wave 2 70 30 = Ok res
               /\ df_index res = df_index wave
               /\ getitem res "close" = getitem wave "close"
               /\ feeds_backtest res).
Proof.
  apply (strategies_feed_backtest wave 2 3 2 70 30); try lia.
  - simpl. discriminate.
  - exists [10; 9; 8; 9; 11; 10]. split; reflexivity.
Defined.

End StrategyProps.

(** ** The indicator columns *)
Section IndicatorProps.

Local Open Scope float_scope.

(** A rolling mean is missing until its window is filled. *)
Lemma rolling_warm_up (window : Z) (xs ys : Series) (i : nat) :
  rolling_mean window xs = Ok ys ->
  (i < length xs)%nat -> (Z.of_nat i + 1 < window)%Z ->
  ys !! i = Some nan.
Proof.
  unfold rolling_mean. intros H Hi Hw.
  destruct (window <? 0)%Z; [discriminate|]. injection H as <-.
  rewrite list_lookup_imap.
  destruct (lookup_lt_is_Some_2 xs i Hi) as [x ->]. simpl.
  unfold rolling_at.
  destruct (Nat.eqb_spec (Z.to_nat window) 0); [reflexivity|].
  destruct (Nat.ltb_spec (S i) (Z.to_nat window)); [reflexivity|lia].
Qed.

Lemma rolling_mean_length (window : Z) (xs ys : Series) :
  rolling_mean window xs = Ok ys -> length ys = length xs.
Proof.
  unfold rolling_mean. destruct (window <? 0)%Z; [discriminate|].
  intros [= <-]. apply length_imap.
Qed.

(** The loop of [calculate_ma], for any list of periods and any frame
    the columns are added to. *)
Lemma calculate_ma_loop_columns (hist : DataFrame) (close : Series) (periods : list Z) :
  getitem hist "close" = Ok close ->
  Forall (fun p => (0 <= p)%Z) periods ->
  forall result, exists res,
    calculate_ma_loop hist periods result = Ok res
    /\ df_index res = df_index result
    /\ (forall p, p ∈ periods -> getitem res ("MA" +:+ pretty p) = rolling_mean p close)
    /\ (forall c, (forall p, p ∈ periods -> c <> "MA" +:+ pretty p) ->
          getitem res c = getitem result c).
Proof.
  intros Hclose Hper. induction Hper as [|p rest Hp _ IH]; intros result; simpl.
  - exists result. split; [reflexivity|]. split; [reflexivity|]. split.
    + intros p Hp. apply elem_of_nil in Hp. contradiction.
    + reflexivity.
  - rewrite Hclose. simpl.
    destruct (rolling_mean_Ok p close Hp) as (ma & Hma & _). rewrite Hma. simpl.
    destruct (IH (setitem result ("MA" +:+ pretty p) ma)) as (res & Hres & Hidx & Hin & Hout).
    exists res. split; [exact Hres|]. split; [exact Hidx|]. split.
    + intros q Hq. destruct (decide (q ∈ rest)) as [Hr|Hr]; [exact (Hin q Hr)|].
      apply elem_of_cons in Hq as [->|Hq]; [|contradiction].
      rewrite Hout, getitem_setitem_eq; [symmetry; exact Hma|].
      intros r Hrin Heq. apply ma_name_inj in Heq. subst r. contradiction.
    + intros c Hc. rewrite Hout.
      * apply getitem_setitem_ne. intros Heq. apply (Hc p); [left|symmetry; exact Heq].
      * intros r Hr. apply Hc. right. exact Hr.
Qed.

(** X10.  For a history with a [close] column and periods that are not
    negative, [calculate_ma] returns the history with one more column
    per period: [MA<p>] holds one value per close, a not-a-number on
    each of the first [p - 1] rows; every column with another name, and
    the index, is the history's.  A period listed twice gives one
    column. *)
Theorem calculate_ma_adds_columns (hist : DataFrame) (periods : list Z) (close : Series) :
  getitem hist "close" = Ok close ->
  Forall (fun p => (0 <= p)%Z) periods ->
  exists res,
    calculate_ma hist periods = Ok res
    /\ df_index res = df_index hist
    /\ (forall p, p ∈ periods ->
          exists ma, getitem res ("MA" +:+ pretty p) = Ok ma
                     /\ length ma = length close
                     /\ (forall i, (i < length close)%nat -> (Z.of_nat i + 1 < p)%Z ->
                           ma !! i = Some nan))
    /\ (forall c, (forall p, p ∈ periods -> c <> "MA" +:+ pretty p) ->
          getitem res c = getitem hist c).
Proof.
  intros Hclose Hper. unfold calculate_ma.
  destruct (calculate_ma_loop_columns hist close periods Hclose Hper hist)
    as (res & Hres & Hidx & Hin & Hout).
  exists res. split; [exact Hres|]. split; [exact Hidx|]. split; [|exact Hout].
  intros p Hp.
  assert (H0 : (0 <= p)%Z) by (rewrite Forall_forall in Hper; exact (Hper p Hp)).
  destruct (rolling_mean_Ok p close H0) as (ma & Hma & Hlen).
  exists ma. split; [rewrite (Hin p Hp); exact Hma|].
  split; [exact Hlen|].
  intros i Hi Hw. exact (rolling_warm_up p close ma i Hma Hi Hw).
Qed.

Lemma calculate_ma_adds_columns_witness :
  exists res,
    calculate_ma wave [3; 2; 3]%Z = Ok res
    /\ df_index res = df_index wave
    /\ (forall p, p ∈ [3; 2; 3]%Z ->
          exists ma, getitem res ("MA" +:+ pretty p) = Ok ma
                     /\ length ma = length [10; 9; 8; 9; 11; 10]
                     /\ (forall i, (i < length [10; 9; 8; 9; 11; 10])%nat ->
                           (Z.of_nat i + 1 < p)%Z -> ma !! i = Some nan))
    /\ (forall c, (forall p, p ∈ [3; 2; 3]%Z -> c <> "MA" +:+ pretty p) ->
          getitem res c = getitem wave c).
Proof.
  apply (calculate_ma_adds_columns wave [3; 2; 3]%Z [10; 9; 8; 9; 11; 10]).
  - reflexivity.
  - repeat constructor; lia.
Defined.

(** No gain over a loss above zero: the quotient is a zero and the RSI
    is exactly 0. *)
Lemma rsi_value_zero_gain (g l : float) :
  (g =? 0) = true -> (0 <? l) = true -> rsi_value g l = 0.
Proof.
  intros Hg Hl. destruct (eq_zero_Prim2SF g Hg) as [s Hs].
  assert (Hdiv : g / l = (if s then (-0) else 0)).
  { apply Prim2SF_inj. rewrite FloatAxioms.div_spec, Hs.
    destruct (gt_zero_Prim2SF l Hl) as [->|(m & e & ->)]; destruct s; reflexivity. }
  unfold rsi_value. rewrite Hdiv. destruct s; reflexivity.
Qed.

Lemma rsi_name_other (s c : string) :
  c <> "RSI" +:+ s -> "RSI" +:+ s <> c.
Proof. intros H Heq. apply H. symmetry. exact Heq. Qed.

(** X11.  For a history with a [close] column and a period that is not
    negative, [calculate_rsi] returns the history with one more column,
    [RSI<period>], one value per close; the index and the other columns
    are the history's.  The column is not-a-number on each of the first
    [period - 1] rows (the missing first price change counts as 0, so
    the window fills one row early), and it is exactly 0 on a row whose
    window has no gain and some loss. *)
Theorem calculate_rsi_column (hist : DataFrame) (period : Z) (close : Series) :
  getitem hist "close" = Ok close ->
  (0 <= period)%Z ->
  exists res rsi gain loss,
    calculate_rsi hist period = Ok res
    /\ df_index res = df_index hist
    /\ (forall c, c <> "RSI" +:+ pretty period -> getitem res c = getitem hist c)
    /\ getitem res ("RSI" +:+ pretty period) = Ok rsi
    /\ length rsi = length close
    /\ rsi_gain period close = Ok gain
    /\ rsi_loss period close = Ok loss
    /\ (forall i, (i < length close)%nat -> (Z.of_nat i + 1 < period)%Z ->
          rsi !! i = Some nan)
    /\ (forall i g l, gain !! i = Some g -> loss !! i = Some l ->
          (g =? 0) = true -> (0 <? l) = true -> rsi !! i = Some 0).
Proof.
  intros Hclose Hp.
  destruct (rolling_mean_Ok period (where_ (fun d => gtb d 0) 0 (diff close)) Hp)
    as (gain & Hgain & Hlg).
  destruct (rolling_mean_Ok period
              (PrimFloat.opp <$> where_ (fun d => d <? 0) 0 (diff close)) Hp)
    as (loss & Hloss & Hll).
  rewrite length_where, length_diff in Hlg.
  rewrite length_fmap, length_where, length_diff in Hll.
  exists (setitem hist ("RSI" +:+ pretty period) (zip_with rsi_value gain loss)),
         (zip_with rsi_value gain loss), gain, loss.
  split; [|split; [reflexivity|split; [|split; [apply getitem_setitem_eq|]]]].
  - unfold calculate_rsi, rsi_gain, rsi_loss. rewrite Hclose. simpl.
    rewrite Hgain. simpl. rewrite Hloss. reflexivity.
  - intros c Hc. apply getitem_setitem_ne, rsi_name_other, Hc.
  - split; [rewrite length_zip_with; lia|].
    split; [exact Hgain|]. split; [exact Hloss|]. split.
    + intros i Hi Hw. rewrite lookup_zip_with.
      rewrite (rolling_warm_up period _ gain i Hgain)
        by (rewrite ?length_where, ?length_diff; assumption).
      simpl.
      rewrite (rolling_warm_up period _ loss i Hloss)
        by (rewrite ?length_fmap, ?length_where, ?length_diff; assumption).
      reflexivity.
    + intros i g l Hg Hl Hz Hpos. rewrite lookup_zip_with, Hg. simpl. rewrite Hl. simpl.
      rewrite (rsi_value_zero_gain g l Hz Hpos). reflexivity.
Qed.

Lemma calculate_rsi_column_witness :
  exists res rsi gain loss,
    calculate_rsi wave 2 = Ok res
    /\ df_index res = df_index wave
    /\ (forall c, c <> "RSI" +:+ pretty 2%Z -> getitem res c = getitem wave c)
    /\ getitem res ("RSI" +:+ pretty 2%Z) = Ok rsi
    /\ length rsi = length [10; 9; 8; 9; 11; 10]
    /\ rsi_gain 2 [10; 9; 8; 9; 11; 10] = Ok gain
    /\ rsi_loss 2 [10; 9; 8; 9; 11; 10] = Ok loss
    /\ (forall i, (i < length [10; 9; 8; 9; 11; 10])%nat -> (Z.of_nat i + 1 < 2)%Z ->
          rsi !! i = Some nan)
    /\ (forall i g l, gain !! i = Some g -> loss !! i = Some l ->
          (g =? 0) = true -> (0 <? l) = true -> rsi !! i = Some 0).
Proof.
  apply (calculate_rsi_column wave 2 [10; 9; 8; 9; 11; 10]); [reflexivity|lia].
Defined.

(** *** The MACD columns *)

Lemma length_ewm_from (alpha prev : float) (xs : Series) :
  length (ewm_from alpha prev xs) = length xs.
Proof.
  revert prev. induction xs as [|x xs IH]; intros prev; simpl; [reflexivity|].
  rewrite IH. reflexivity.
Qed.

Lemma length_ewm_mean (span : Z) (xs : Series) : length (ewm_mean span xs) = length xs.
Proof. destruct xs as [|x xs]; simpl; [reflexivity|]. rewrite length_ewm_from. reflexivity. Qed.

(** The smoothed series starts at the first observation. *)
Lemma ewm_mean_head (span : Z) (xs : Series) : ewm_mean span xs !! 0%nat = xs !! 0%nat.
Proof. destruct xs; reflexivity. Qed.

(** A finite number minus itself is plus zero. *)
Lemma sub_diag_finite (x : float) : finite x = true -> x - x = 0.
Proof.
  unfold finite. rewrite FloatAxioms.ltb_spec, FloatAxioms.abs_spec. intros H.
  apply Prim2SF_inj. rewrite FloatAxioms.sub_spec.
  destruct (Prim2SF x) as [[]|s| |s m e]; try discriminate; try reflexivity.
  unfold SF64sub, SFsub. rewrite Z.sub_diag. reflexivity.
Qed.

(** X12.  For a history with a [close] column [calculate_macd] returns
    the history with the five columns EMA12, EMA26, DIF, DEA and MACD,
    one value per close each; the index and the columns with other names
    are the history's.  Both averages start at the first close, so on
    the first row DIF, DEA and MACD are exactly 0 whenever the first
    close is a finite number. *)
Theorem calculate_macd_starts_at_zero (hist : DataFrame) (close : Series) :
  getitem hist "close" = Ok close ->
  exists res ema12 ema26 dif dea macd,
    calculate_macd hist = Ok res
    /\ df_index res = df_index hist
    /\ (forall c, c <> "EMA12" -> c <> "EMA26" -> c <> "DIF" -> c <> "DEA" -> c <> "MACD" ->
          getitem res c = getitem hist c)
    /\ (getitem res "EMA12" = Ok ema12 /\ getitem res "EMA26" = Ok ema26
        /\ getitem res "DIF" = Ok dif /\ getitem res "DEA" = Ok dea
        /\ getitem res "MACD" = Ok macd)
    /\ (length ema12 = length close /\ length ema26 = length close
        /\ length dif = length close /\ length dea = length close
        /\ length macd = length close)
    /\ (forall c0, close !! 0%nat = Some c0 ->
          ema12 !! 0%nat = Some c0 /\ ema26 !! 0%nat = Some c0
          /\ (finite c0 = true ->
              dif !! 0%nat = Some 0 /\ dea !! 0%nat = Some 0 /\ macd !! 0%nat = Some 0)).
Proof.
  intros Hclose. unfold calculate_macd. rewrite Hclose. simpl.
  repeat (rewrite ?getitem_setitem_eq; rewrite ?getitem_setitem_ne by discriminate; simpl).
  eexists _, _, _, _, _, _. split; [reflexivity|]. split; [reflexivity|].
  split; [|split; [|split]].
  - intros c H1 H2 H3 H4 H5.
    rewrite !getitem_setitem_ne by (intros Heq; symmetry in Heq; contradiction).
    reflexivity.
  - repeat (rewrite ?getitem_setitem_eq; rewrite ?getitem_setitem_ne by discriminate).
    repeat split; reflexivity.
  - rewrite ?length_zip_with, ?length_ewm_mean, ?length_zip_with, ?length_ewm_mean.
    repeat split; lia.
  - intros c0 Hc0.
    assert (H12 : ewm_mean 12 close !! 0%nat = Some c0) by (rewrite ewm_mean_head; exact Hc0).
    assert (H26 : ewm_mean 26 close !! 0%nat = Some c0) by (rewrite ewm_mean_head; exact Hc0).
    split; [exact H12|]. split; [exact H26|]. intros Hfin.
    assert (Hdif : zip_with PrimFloat.sub (ewm_mean 12 close) (ewm_mean 26 close) !! 0%nat
                   = Some 0).
    { rewrite lookup_zip_with, H12. simpl. rewrite H26. simpl.
      rewrite (sub_diag_finite c0 Hfin). reflexivity. }
    assert (Hdea : ewm_mean 9 (zip_with PrimFloat.sub (ewm_mean 12 close) (ewm_mean 26 close))
                     !! 0%nat = Some 0) by (rewrite ewm_mean_head; exact Hdif).
    split; [exact Hdif|]. split; [exact Hdea|].
    rewrite lookup_zip_with, Hdif. simpl. rewrite Hdea. reflexivity.
Qed.

Lemma calculate_macd_starts_at_zero_witness :
  exists res ema12 ema26 dif dea macd,
    calculate_macd wave = Ok res
    /\ df_index res = df_index wave
    /\ (forall c, c <> "EMA12" -> c <> "EMA26" -> c <> "DIF" -> c <> "DEA" -> c <> "MACD" ->
          getitem res c = getitem wave c)
    /\ (getitem res "EMA12" = Ok ema12 /\ getitem res "EMA26" = Ok ema26
        /\ getitem res "DIF" = Ok dif /\ getitem res "DEA" = Ok dea
        /\ getitem res "MACD" = Ok macd)
    /\ (length ema12 = length [10; 9; 8; 9; 11; 10]
        /\ length ema26 = length [10; 9; 8; 9; 11; 10]
        /\ length dif = length [10; 9; 8; 9; 11; 10]
        /\ length dea = length [10; 9; 8; 9; 11; 10]
        /\ length macd = length [10; 9; 8; 9; 11; 10])
    /\ (forall c0, [10; 9; 8; 9; 11; 10] !! 0%nat = Some c0 ->
          ema12 !! 0%nat = Some c0 /\ ema26 !! 0%nat = Some c0
          /\ (finite c0 = true ->
              dif !! 0%nat = Some 0 /\ dea !! 0%nat = Some 0 /\ macd !! 0%nat = Some 0)).
Proof.
  apply (calculate_macd_starts_at_zero wave [10; 9; 8; 9; 11; 10]). reflexivity.
Defined.

End IndicatorProps.

(** ** Stock codes and the request methods *)
Section StringFacts.

Lemma split_no_sep (sep : N) (s : str) : sep ∉ s -> split sep s = [s].
Proof.
  induction s as [|c s IH]; simpl; intros H; [reflexivity|].
  apply not_elem_of_cons in H as [Hc Hs].
  destruct (N.eqb_spec c sep) as [->|_]; [contradiction|].
  rewrite (IH Hs). reflexivity.
Qed.

Lemma split_app_sep (sep : N) (a b : str) :
  sep ∉ a -> split sep (a ++ sep :: b) = a :: split sep b.
Proof.
  induction a as [|c a IH]; simpl; intros H.
  - rewrite N.eqb_refl. reflexivity.
  - apply not_elem_of_cons in H as [Hc Ha].
    destruct (N.eqb_spec c sep) as [->|_]; [contradiction|].
    rewrite (IH Ha). reflexivity.
Qed.

(** Splitting what was joined gives the pieces back. *)
Lemma split_join (sep : N) (pieces : list str) :
  pieces <> [] -> Forall (fun p => sep ∉ p) pieces ->
  split sep (join sep pieces) = pieces.
Proof.
  intros Hne H. induction H as [|p rest Hp Hrest IH]; [contradiction|].
  destruct rest as [|q rest].
  - simpl. apply split_no_sep. exact Hp.
  - change (join sep (p :: q :: rest)) with (p ++ sep :: join sep (q :: rest)).
    rewrite (split_app_sep sep p _ Hp), IH by discriminate. reflexivity.
Qed.

Lemma split_quoted (text data : str) :
  quoted text data -> exists pre more, split quote_char text = pre :: data :: more.
Proof.
  intros (pre & post & -> & Hpre & Hdata & Hpost).
  rewrite (split_app_sep _ pre _ Hpre). exists pre.
  destruct Hpost as [->|[rest ->]].
  - rewrite app_nil_r, (split_no_sep _ data Hdata). exists []. reflexivity.
  - rewrite (split_app_sep _ data _ Hdata). eauto.
Qed.

(** Absence of a character, by a test that computes. *)
Lemma absent_by_test (c : N) (s : str) :
  forallb (fun x => negb (x =? c)%N) s = true -> c ∉ s.
Proof.
  induction s as [|x s IH]; simpl; intros H; [apply not_elem_of_nil|].
  apply andb_true_iff in H as [Hx Hs]. apply not_elem_of_cons. split.
  - intros ->. rewrite N.eqb_refl in Hx. discriminate.
  - exact (IH Hs).
Qed.

Lemma all_absent_by_test (c : N) (pieces : list str) :
  forallb (fun p => forallb (fun x => negb (x =? c)%N) p) pieces = true ->
  Forall (fun p => c ∉ p) pieces.
Proof.
  induction pieces as [|p pieces IH]; simpl; intros H; constructor.
  - apply andb_true_iff in H as [Hp _]. exact (absent_by_test c p Hp).
  - apply andb_true_iff in H as [_ Hr]. exact (IH Hr).
Qed.

End StringFacts.

Lemma outcome_bind_Raises {A B} (x : outcome A) (f : A -> outcome B) (e : error) :
  x ≫= f = Raises e -> x = Raises e \/ exists a, x = Returns a /\ f a = Raises e.
Proof. destruct x as [a|e']; simpl; [eauto|]. intros [= <-]. auto. Qed.

Lemma index_Raises {A} (l : list A) (i : nat) (e : error) :
  index l i = Raises e -> error_class e = "IndexError".
Proof. unfold index. destruct (l !! i); [discriminate|]. intros [= <-]. reflexivity. Qed.

Section ParseProps.

Variable float_of_str : str -> outcome float.
Variable strptime : str -> outcome datetime.

Hypothesis float_raises_ValueError :
  forall s e, float_of_str s = Raises e -> error_class e = "ValueError".
Hypothesis strptime_raises_ValueError :
  forall s e, strptime s = Raises e -> error_class e = "ValueError".

Lemma float_field_Raises (fields : list str) (i : nat) (e : error) :
  index fields i ≫= float_of_str = Raises e ->
  error_class e = "ValueError" \/ error_class e = "IndexError".
Proof.
  intros H. apply outcome_bind_Raises in H as [H|(s & _ & H)].
  - right. exact (index_Raises _ _ _ H).
  - left. exact (float_raises_ValueError _ _ H).
Qed.

(** Whatever the body of the [try] raises is caught by the second
    [except] clause. *)
Lemma parse_quote_Raises (text : str) (e : error) :
  parse_quote float_of_str strptime text = Raises e ->
  error_class e = "ValueError" \/ error_class e = "IndexError".
Proof.
  unfold parse_quote. intros H.
  apply outcome_bind_Raises in H as [H|(data & _ & H)];
    [right; exact (index_Raises _ _ _ H)|].
  destruct data as [|c data]; [injection H as <-; left; reflexivity|].
  destruct (length (split comma (c :: data)) <? 32)%nat;
    [injection H as <-; left; reflexivity|].
  apply outcome_bind_Raises in H as [H|(x0 & _ & H)];
    [right; exact (index_Raises _ _ _ H)|].
  do 5 (apply outcome_bind_Raises in H as [H|(? & _ & H)];
        [exact (float_field_Raises _ _ _ H)|]).
  do 2 (apply outcome_bind_Raises in H as [H|(? & _ & H)];
        [right; exact (index_Raises _ _ _ H)|]).
  apply outcome_bind_Raises in H as [H|(? & _ & H)]; [|discriminate].
  left. exact (strptime_raises_ValueError _ _ H).
Qed.

End ParseProps.

Section RequestProps.

Variable unicode_digit : N -> bool.
Variable float_of_str : str -> outcome float.
Variable strptime : str -> outcome datetime.
Variable http_get : str -> reply.
Variable _get_historical_data : Manager -> outcome unit * Manager.

Local Abbreviation realtime := (_get_realtime_data float_of_str strptime http_get).
Local Abbreviation request :=
  (request_stock_data unicode_digit float_of_str strptime http_get _get_historical_data).

Lemma isdigit_six (code : str) :
  length code = 6%nat -> isdigit unicode_digit code = forallb unicode_digit code.
Proof. destruct code; [discriminate|reflexivity]. Qed.

(** What the guard of [request_stock_data] does with a code that
    carries one of the two prefixes. *)
Lemma request_prefixed (prefix code : str) (m : Manager) :
  prefix = lit "sh" \/ prefix = lit "sz" ->
  request (prefix ++ code) m
  = if (length code =? 6)%nat && forallb unicode_digit code then
      match _get_historical_data (mkManager (prefix ++ code) (historical_data m) (latest_data m))
      with
      | (Returns _, m') => realtime m'
      | (Raises e, m') => (Raises e, m')
      end
    else (Raises (mkError "ValueError" "股票代码格式错误：必须为6位数字"), m).
Proof.
  intros Hp. unfold request_stock_data.
  assert (Hstart : startswith (prefix ++ code) (lit "sh")
                   || startswith (prefix ++ code) (lit "sz") = true)
    by (destruct Hp as [->| ->]; reflexivity).
  assert (Hdrop : drop 2 (prefix ++ code) = code)
    by (destruct Hp as [->| ->]; reflexivity).
  rewrite Hstart, Hdrop. simpl negb at 1. cbv iota.
  destruct (Nat.eqb_spec (length code) 6) as [Hlen|Hlen]; simpl.
  - rewrite (isdigit_six code Hlen).
    destruct (forallb unicode_digit code); reflexivity.
  - reflexivity.
Qed.

(** X13.  The codes that [convert_stock_code] prepares and the guard of
    [request_stock_data].  A listed code of six digits starting with 6,
    0 or 3 is converted to a code the manager accepts: the code is
    stored and the two fetches run.  Every other code is converted to
    one the manager rejects with a [ValueError] before anything is
    stored or fetched; in particular every code given the prefix [bj]
    (any first character other than 6, 0 and 3, and the empty code) is
    rejected for its prefix. *)
Theorem converted_code_request (code : str) (m : Manager) :
  (listed_code unicode_digit code = true ->
     request (convert_stock_code code) m
     = match _get_historical_data
               (mkManager (convert_stock_code code) (historical_data m) (latest_data m))
       with
       | (Returns _, m') => realtime m'
       | (Raises e, m') => (Raises e, m')
       end)
  /\ (listed_code unicode_digit code = false ->
      exists msg, request (convert_stock_code code) m = (Raises (mkError "ValueError" msg), m))
  /\ (startswith code (lit "6") || startswith code (lit "0") || startswith code (lit "3") = false ->
      convert_stock_code code = lit "bj" ++ code
      /\ request (convert_stock_code code) m
         = (Raises (mkError "ValueError" "股票代码格式错误：必须以'sh'或'sz'开头"), m)).
Proof.
  assert (Hconv : convert_stock_code code
                  = if startswith code (lit "6") then lit "sh" ++ code
                    else if startswith code (lit "0") || startswith code (lit "3")
                         then lit "sz" ++ code else lit "bj" ++ code) by reflexivity.
  assert (Hbj : request (lit "bj" ++ code) m
                = (Raises (mkError "ValueError" "股票代码格式错误：必须以'sh'或'sz'开头"), m))
    by reflexivity.
  unfold listed_code. rewrite Hconv.
  destruct (startswith code (lit "6")) eqn:H6; cbv iota.
  - rewrite (request_prefixed (lit "sh") code m) by (left; reflexivity).
    rewrite orb_true_l, andb_true_r.
    destruct ((length code =? 6)%nat && forallb unicode_digit code).
    + split; [reflexivity|]. split; discriminate.
    + split; [discriminate|]. split; [eauto|discriminate].
  - rewrite orb_false_l.
    destruct (startswith code (lit "0") || startswith code (lit "3")) eqn:H03; cbv iota.
    + rewrite (request_prefixed (lit "sz") code m) by (right; reflexivity).
      rewrite andb_true_r.
      destruct ((length code =? 6)%nat && forallb unicode_digit code).
      * split; [reflexivity|]. split; discriminate.
      * split; [discriminate|]. split; [eauto|discriminate].
    + rewrite andb_false_r, Hbj.
      split; [discriminate|]. split; [eauto|]. intros _. split; reflexivity.
Qed.

(** The reply text read through its fields. *)
Lemma parse_quote_fields (text : str) (fields : list str) :
  quoted text (join comma fields) ->
  join comma fields <> [] ->
  Forall (fun f => comma ∉ f) fields ->
  parse_quote float_of_str strptime text
  = if (length fields <? 32)%nat then Raises (mkError "ValueError" "实时数据格式错误")
    else quote_of_fields float_of_str strptime fields.
Proof.
  intros Hq Hne Hcomma.
  assert (Hfields : fields <> []) by (intros ->; apply Hne; reflexivity).
  destruct (split_quoted _ _ Hq) as (pre & more & Hsplit).
  unfold parse_quote. rewrite Hsplit.
  change (index (pre :: join comma fields :: more) 1) with (Returns (join comma fields)).
  simpl mbind at 1. unfold outcome_bind at 1.
  destruct (join comma fields) as [|c data] eqn:Ej; [contradiction|].
  rewrite <- Ej, (split_join comma fields Hfields Hcomma). reflexivity.
Qed.

(** X14.  Whatever the network replies, [_get_realtime_data] either
    returns, and then it has replaced [latest_data] and nothing else, or
    it raises a [ConnectionError] or a [ValueError] and leaves the
    manager as it was: a reply that cannot be read never escapes as an
    [IndexError], and never leaves a half-filled quote behind. *)
Theorem realtime_outcomes (m : Manager) :
  (forall s e, float_of_str s = Raises e -> error_class e = "ValueError") ->
  (forall s e, strptime s = Raises e -> error_class e = "ValueError") ->
  (exists q, realtime m = (Returns (), with_quote m q))
  \/ (exists e, realtime m = (Raises e, m)
                /\ (error_class e = "ConnectionError" \/ error_class e = "ValueError")).
Proof.
  intros Hf Hs. unfold _get_realtime_data.
  destruct (http_get (realtime_url m)) as [msg|text].
  - right. eexists. split; [reflexivity|]. left. reflexivity.
  - destruct (parse_quote float_of_str strptime text) as [q|e] eqn:E.
    + left. exists q. reflexivity.
    + right.
      assert (Hc : caught_by ["ValueError"; "IndexError"] e = true).
      { unfold caught_by.
        destruct (parse_quote_Raises _ _ Hf Hs text e E) as [-> | ->]; reflexivity. }
      rewrite Hc. eexists. split; [reflexivity|]. right. reflexivity.
Qed.

(** X15.  Three replies that cannot be read, and the [ValueError] each
    one ends in: a text without a double quote (the [IndexError] of the
    second piece of the split is caught and reworded), an empty text between the
    first two double quotes, and a text between them with fewer than 32
    comma-separated fields.  The manager is left as it was. *)
Theorem realtime_bad_reply (m : Manager) (text : str) :
  http_get (realtime_url m) = Response text ->
  (quote_char ∉ text ->
     realtime m
     = (Raises (mkError "ValueError" "解析实时数据失败: list index out of range"), m))
  /\ (quoted text [] ->
     realtime m = (Raises (mkError "ValueError" "解析实时数据失败: 获取实时数据失败"), m))
  /\ (forall fields,
        quoted text (join comma fields) -> join comma fields <> [] ->
        Forall (fun f => comma ∉ f) fields -> (length fields < 32)%nat ->
        realtime m = (Raises (mkError "ValueError" "解析实时数据失败: 实时数据格式错误"), m)).
Proof.
  intros Hget. unfold _get_realtime_data. rewrite Hget. split; [|split].
  - intros Hno. unfold parse_quote. rewrite (split_no_sep _ text Hno). reflexivity.
  - intros Hq. destruct (split_quoted _ _ Hq) as (pre & more & Hsplit).
    unfold parse_quote. rewrite Hsplit. reflexivity.
  - intros fields Hq Hne Hcomma Hlen.
    rewrite (parse_quote_fields text fields Hq Hne Hcomma).
    apply Nat.ltb_lt in Hlen. rewrite Hlen. reflexivity.
Qed.

(** X16.  Of a reply, [_get_realtime_data] reads the text between the
    first two double quotes, and of its comma-separated fields the
    fields 0 to 5, 30 and 31: two replies of at least 32 fields each that
    agree on these eight fields are read alike, whatever else they
    hold. *)
Theorem parse_quote_reads_eight_fields (text text' : str) (fields fields' : list str) :
  quoted text (join comma fields) -> quoted text' (join comma fields') ->
  Forall (fun f => comma ∉ f) fields -> Forall (fun f => comma ∉ f) fields' ->
  (32 <= length fields)%nat -> (32 <= length fields')%nat ->
  Forall (fun i => fields !! i = fields' !! i) [0; 1; 2; 3; 4; 5; 30; 31]%nat ->
  parse_quote float_of_str strptime text = parse_quote float_of_str strptime text'
  /\ parse_quote float_of_str strptime text = quote_of_fields float_of_str strptime fields.
Proof.
  intros Hq Hq' Hc Hc' Hlen Hlen' Hsame.
  assert (Hne : forall fs : list str, (32 <= length fs)%nat -> join comma fs <> []).
  { intros [|f0 [|f1 fs]] Hl; simpl in Hl; try lia.
    change (join comma (f0 :: f1 :: fs)) with (f0 ++ comma :: join comma (f1 :: fs)).
    intros Hnil. apply app_eq_nil in Hnil as [_ Hnil]. discriminate. }
  rewrite (parse_quote_fields text fields Hq (Hne _ Hlen) Hc).
  rewrite (parse_quote_fields text' fields' Hq' (Hne _ Hlen') Hc').
  apply Nat.ltb_ge in Hlen, Hlen'. rewrite Hlen, Hlen'.
  split; [|reflexivity].
  repeat (apply Forall_cons in Hsame as [? Hsame]).
  unfold quote_of_fields, index.
  repeat match goal with H : fields !! _ = fields' !! _ |- _ => rewrite H; clear H end.
  reflexivity.
Qed.

End RequestProps.

(** ** The request methods on concrete replies *)
Section RequestExamples.

Lemma float_of_one_raises (s : str) (e : error) :
  float_of_one s = Raises e -> error_class e = "ValueError".
Proof.
  unfold float_of_one. destruct (bool_decide (s = lit "1")); [discriminate|].
  intros [= <-]. reflexivity.
Qed.

Lemma strptime_of_noon_raises (s : str) (e : error) :
  strptime_of_noon s = Raises e -> error_class e = "ValueError".
Proof.
  unfold strptime_of_noon. destruct (bool_decide (s = lit "2024-01-02 12:00:00")); [discriminate|].
  intros [= <-]. reflexivity.
Qed.

Lemma full_reply_quoted : quoted full_reply (join comma full_fields).
Proof.
  exists (lit "var hq_str_sh600000="), (quote_char :: lit ";").
  split; [reflexivity|].
  split; [apply absent_by_test; reflexivity|].
  split; [apply absent_by_test; reflexivity|].
  right. eexists. reflexivity.
Qed.

Lemma other_reply_quoted : quoted other_reply (join comma other_fields).
Proof.
  exists (lit "x="), [].
  split; [unfold other_reply; rewrite app_nil_r; reflexivity|].
  split; [apply absent_by_test; reflexivity|].
  split; [apply absent_by_test; reflexivity|].
  left. reflexivity.
Qed.

Lemma realtime_outcomes_witness :
  (exists q, _get_realtime_data float_of_one strptime_of_noon (replies full_reply) new_manager
             = (Returns (), with_quote new_manager q))
  \/ (exists e, _get_realtime_data float_of_one strptime_of_noon (replies full_reply) new_manager
                = (Raises e, new_manager)
                /\ (error_class e = "ConnectionError" \/ error_class e = "ValueError")).
Proof.
  apply (realtime_outcomes float_of_one strptime_of_noon (replies full_reply) new_manager).
  - exact float_of_one_raises.
  - exact strptime_of_noon_raises.
Defined.

Lemma realtime_bad_reply_witness :
  _get_realtime_data float_of_one strptime_of_noon (replies empty_reply) new_manager
  = (Raises (mkError "ValueError" "解析实时数据失败: 获取实时数据失败"), new_manager).
Proof.
  apply (realtime_bad_reply float_of_one strptime_of_noon (replies empty_reply)
           new_manager empty_reply eq_refl).
  exists (lit "var hq_str_sh999999="), (quote_char :: lit ";").
  split; [reflexivity|].
  split; [apply absent_by_test; reflexivity|].
  split; [apply not_elem_of_nil|].
  right. eexists. reflexivity.
Defined.

Lemma parse_quote_reads_eight_fields_witness :
  parse_quote float_of_one strptime_of_noon full_reply
  = parse_quote float_of_one strptime_of_noon other_reply
  /\ parse_quote float_of_one strptime_of_noon full_reply
     = quote_of_fields float_of_one strptime_of_noon full_fields.
Proof.
  apply (parse_quote_reads_eight_fields float_of_one strptime_of_noon
           full_reply other_reply full_fields other_fields
           full_reply_quoted other_reply_quoted).
  - apply all_absent_by_test. reflexivity.
  - apply all_absent_by_test. reflexivity.
  - simpl. lia.
  - simpl. lia.
  - repeat constructor.
Defined.

(** The reply of 33 fields is read as a quote and stored. *)
Example full_reply_stored :
  _get_realtime_data float_of_one strptime_of_noon (replies full_reply) new_manager
  = (Returns (),
     with_quote new_manager
       (mkQuote (lit "PFYH") 1 1 1 1 1 (mkDatetime 2024 1 2 12 0 0))).
Proof. vm_compute. reflexivity. Qed.

(** A listed Shanghai code goes through; a code of the Beijing exchange
    is turned away for its prefix, and the manager keeps its state. *)
Example request_listed_code :
  request_stock_data ascii_digit float_of_one strptime_of_noon (replies full_reply)
    keeps_history (convert_stock_code (lit "600000")) new_manager
  = (Returns (),
     mkManager (lit "sh600000") empty_frame
       (Some (mkQuote (lit "PFYH") 1 1 1 1 1 (mkDatetime 2024 1 2 12 0 0)))).
Proof. vm_compute. reflexivity. Qed.

Example request_beijing_code :
  convert_stock_code (lit "830799") = lit "bj830799"
  /\ request_stock_data ascii_digit float_of_one strptime_of_noon (replies full_reply)
       keeps_history (convert_stock_code (lit "830799")) new_manager
     = (Raises (mkError "ValueError" "股票代码格式错误：必须以'sh'或'sz'开头"), new_manager).
Proof. split; vm_compute; reflexivity. Qed.

End RequestExamples.
